(** * CSplan client: challenge-response login, registration and master-key custody

    A shallow embedding of [LoginActions] and [RegisterActions]
    (the authentication module of the CSplan web client).

    The methods are [async] functions that talk to a web worker, to the
    server (through [fetch]), to WebCrypto and to IndexedDB.  They are
    embedded as programs of a free monad [Prog]:
    - synchronous operations on the object's own fields, on
      [localStorage] and on the user store are [Do] nodes, interpreted by
      [perform] on an explicit [World];
    - every [await] of an outside promise is an [Await] node, answered by
      the environment, which may fulfil or reject it;
    - a call of an [async] function whose promise is dropped (no [await])
      is a [Fork] node.
    Every outward-visible step is recorded as an observation ([Obs]).

    What lies outside the module is taken as it is typed there: a
    response body has the type the source annotates [res.json()] with,
    the codec of cs-crypto ([encode], [decode]) is a pair of total
    functions, a message of the worker with code [ARGON2_OK] carries its
    digest, and keys are opaque handles.  How each of these promises
    settles is left to the environment, over which the theorems
    quantify.  The constructor and [loadArgon2] (the set-up of the
    worker) are not embedded. *)

From Stdlib Require Import ZArith List Strings.String Strings.Ascii Strings.Byte Bool Lia.
From Stdlib Require Import DecimalString DecimalN.
From Stdlib Require Import Floats.
From stdpp Require Import base option gmap strings.

Import ListNotations.
Local Open Scope Z_scope.
Local Open Scope string_scope.
Local Open Scope list_scope.

Set Implicit Arguments.

(** ** Data model *)

(** [Uint8Array] *)
Definition bytes : Type := list Byte.byte.

(** [Argon2HashParams], with the fields of the object literal that
    initialises [LoginActions.hashParams]. *)
Record Argon2HashParams : Type := mkHashParams {
  hp_type : string;
  timeCost : Z;
  memoryCost : Z;
  threads : Z;
  saltLen : Z
}.

Record Challenge : Type := mkChallenge {
  ch_id : string;
  ch_data : string;
  ch_salt : string;
  ch_hashParams : Argon2HashParams
}.

Record SolvedChallenge : Type := mkSolved { sc_data : string }.

Record ChallengeRequest : Type := mkChallengeRequest {
  cr_email : string;
  cr_totp : option Z
}.

Record ChallengeResponse : Type := mkChallengeResponse {
  rs_id : string;
  CSRFtoken : string
}.

Record RegisterRequest : Type := mkRegisterRequest {
  rr_email : string;
  rr_key : string;
  rr_hashParams : Argon2HashParams
}.

Record AuthUser : Type := mkAuthUser {
  email : string;
  password : string;
  totp : option Z
}.

(** [MasterKeys] as it travels to and from the server: the private key is
    the wrapped ciphertext, a string. *)
Record MasterKeys : Type := mkMasterKeys {
  mk_publicKey : string;
  mk_privateKey : string;
  hashSalt : string;
  mk_hashParams : Argon2HashParams
}.

(** The body of an error response; [message] may be absent. *)
Record ErrorResponse : Type := mkErrorResponse { message : option string }.

(** A WebCrypto [CryptoKey]: an opaque handle handed out by the platform. *)
Record CryptoKey : Type := mkCryptoKey { key_handle : Z }.

Record CryptoKeyPair : Type := mkKeyPair {
  publicKey : CryptoKey;
  privateKey : CryptoKey
}.

(** The record written to the IndexedDB store ['keys']: the keys in their
    usable, unwrapped form. *)
Record KeyRecord : Type := mkKeyRecord {
  kr_id : string;
  kr_publicKey : CryptoKey;
  kr_privateKey : CryptoKey
}.

(** Modelled from the spec: the user store ([stores/user]) is not part of
    the sources at hand; the session holds the local identity, and
    [login] marks it as logged in. *)
Record User : Type := mkUser { u_email : string; u_id : string }.

Record UserStore : Type := mkUserStore {
  user : User;
  isLoggedIn : bool
}.

(** The body of a hash request posted to the argon2 worker. *)
Record Argon2_HashRequest : Type := mkHashRequest {
  hr_password : string;
  hr_salt : bytes;
  hr_timeCost : Z;
  hr_memoryCost : Z;
  hr_threads : Z;
  hashLen : Z
}.

Inductive Argon2_Request : Type :=
| Hash2i (body : Argon2_HashRequest).

(** A message of the worker: its status code and, when the code is
    [ARGON2_OK], the digest (the [body!] of the source). *)
Record Argon2_Message : Type := mkMessage {
  code : Z;
  msg_body : bytes
}.

Definition ARGON2_OK : Z := 0.

(** What [JSON.stringify] is applied to in the four requests with a body. *)
Inductive Json : Type :=
| JSON_ChallengeRequest (r : ChallengeRequest)
| JSON_SolvedChallenge (s : SolvedChallenge)
| JSON_RegisterRequest (r : RegisterRequest)
| JSON_MasterKeys (k : MasterKeys).

Inductive Method : Type := GET | POST.

(** The second argument of [fetch].  A header may carry [null]: the source
    passes [localStorage.getItem(...)!] unchecked. *)
Record RequestInit : Type := mkInit {
  method : Method;
  headers : list (string * option string);
  credentials : option string;
  req_body : option Json
}.

Record Response : Type := mkResponse { status : Z }.

Record AesCtrParams : Type := mkAesCtr {
  alg_name : string;
  counter : bytes;
  ctr_length : Z
}.

(** Of the [Algorithms] of cs-crypto, the one the module names. *)
Inductive Algorithms : Type := AES_GCM.

Inductive AuthConditions : Type := Success | TOTPRequired.

(** A JavaScript [Error]. *)
Inductive JsError : Type := Error (msg : string).

(** How a promise settles. *)
Inductive Settled (A : Type) : Type :=
| Fulfilled (a : A)
| Rejected (e : JsError).
Arguments Rejected {A} e.

(** ** Operations *)

(** Synchronous operations. *)
Inductive Op : Type -> Type :=
| onMessage (m : string) : Op unit
| worker_postMessage (r : Argon2_Request) : Op unit
| console_log (s : string) : Op unit
| get_hashParams : Op Argon2HashParams
| set_hashParams (p : Argon2HashParams) : Op unit
| get_authKeyMaterial : Op (option bytes)
| set_authKeyMaterial (m : option bytes) : Op unit
| localStorage_getItem (k : string) : Op (option string)
| localStorage_setItem (k v : string) : Op unit
| userStore_login (u : User) : Op unit
| userStore_get : Op UserStore.

(** Promises of the outside world that the code awaits.  [res_json_*] is
    [res.json()] at the type the source annotates the result with;
    [db_addToStore] is [db.addToStore], whose module is not among the
    sources. *)
Inductive Ext : Type -> Type :=
| fetch (url : string) (init : RequestInit) : Ext Response
| res_json_Error (res : Response) : Ext ErrorResponse
| res_json_Challenge (res : Response) : Ext Challenge
| res_json_ChallengeResponse (res : Response) : Ext ChallengeResponse
| res_json_MasterKeys (res : Response) : Ext MasterKeys
| listen_nextMessage : Ext Argon2_Message
| subtle_importKey (format : string) (keyData : option bytes)
    (algorithm : string) (extractable : bool) (usages : list string)
  : Ext CryptoKey
| subtle_decrypt (alg : AesCtrParams) (key : CryptoKey) (data : bytes)
  : Ext bytes
| aes_importKeyMaterial (material : bytes) (alg : Algorithms) : Ext CryptoKey
| rsa_importPublicKey (spki : string) : Ext CryptoKey
| rsa_exportPublicKey (key : CryptoKey) : Ext string
| rsa_generateKeypair (keysize : Z) : Ext CryptoKeyPair
| rsa_wrapPrivateKey (key tempKey : CryptoKey) : Ext string
| rsa_unwrapPrivateKey (wrapped : string) (tempKey : CryptoKey) : Ext CryptoKey
| db_addToStore (store : string) (record : KeyRecord) : Ext unit.

(** ** Programs *)

Inductive Prog (A : Type) : Type :=
| Ret (a : A)
| Throw (e : JsError)
| Do (X : Type) (o : Op X) (k : X -> Prog A)
| Await (X : Type) (e : Ext X) (k : X -> Prog A)
| Fork (B : Type) (p : Prog B) (k : Prog A).
Arguments Throw {A} e.
Arguments Do {A X} o k.
Arguments Await {A X} e k.
Arguments Fork {A B} p k.

Fixpoint bind {A B : Type} (p : Prog A) (f : A -> Prog B) : Prog B :=
  match p with
  | Ret a => f a
  | Throw e => Throw e
  | Do o k => Do o (fun x => bind (k x) f)
  | Await e k => Await e (fun x => bind (k x) f)
  | Fork q k => Fork q (bind k f)
  end.

Definition perform_ {X : Type} (o : Op X) : Prog X := Do o (fun x => Ret x).
Definition await {X : Type} (e : Ext X) : Prog X := Await e (fun x => Ret x).
(** Calling an [async] function and dropping its promise. *)
Definition detach {B : Type} (p : Prog B) : Prog unit := Fork p (Ret tt).

Declare Scope prog_scope.
Delimit Scope prog_scope with prog.
Notation "'let*' x ':=' p 'in' q" := (bind p (fun x => q))
  (at level 10, x name, p at level 100, q at level 200) : prog_scope.
Local Open Scope prog_scope.

(** ** The world *)

(** The fields of the [LoginActions] object, [localStorage] and the user
    store. *)
Record World : Type := mkWorld {
  hashParams : Argon2HashParams;
  authKeyMaterial : option bytes;
  localStorage : gmap string string;
  userStore : UserStore
}.

(** What an observer of the client sees, in the order it happens. *)
Inductive Obs : Type :=
| ObsMessage (m : string)
| ObsPost (r : Argon2_Request)
| ObsConsole (s : string)
| ObsSetItem (k v : string)
| ObsLogin (u : User)
| ObsCall (X : Type) (e : Ext X)
| ObsSettle (X : Type) (e : Ext X) (r : Settled X)
| ObsUnhandledRejection (e : JsError).
Arguments ObsCall {X} e.
Arguments ObsSettle {X} e r.

Definition perform {X : Type} (o : Op X) (w : World) : X * World * list Obs :=
  match o in Op T return T * World * list Obs with
  | onMessage m => (tt, w, [ObsMessage m])
  | worker_postMessage r => (tt, w, [ObsPost r])
  | console_log s => (tt, w, [ObsConsole s])
  | get_hashParams => (hashParams w, w, [])
  | set_hashParams p =>
      (tt, mkWorld p (authKeyMaterial w) (localStorage w) (userStore w), [])
  | get_authKeyMaterial => (authKeyMaterial w, w, [])
  | set_authKeyMaterial m =>
      (tt, mkWorld (hashParams w) m (localStorage w) (userStore w), [])
  | localStorage_getItem k => (localStorage w !! k, w, [])
  | localStorage_setItem k v =>
      (tt, mkWorld (hashParams w) (authKeyMaterial w)
                   (<[k := v]> (localStorage w)) (userStore w),
       [ObsSetItem k v])
  | userStore_login u =>
      (tt, mkWorld (hashParams w) (authKeyMaterial w) (localStorage w)
                   (mkUserStore u true),
       [ObsLogin u])
  | userStore_get => (userStore w, w, [])
  end.

(** ** Running programs *)

(** A suspended [async] call: the promise it waits for and what it does
    with the value.  Its own result is dropped. *)
Record Task : Type := mkTask {
  task_ty : Type;
  task_waits : Ext task_ty;
  task_cont : task_ty -> Prog unit
}.

Definition ignore {B : Type} (p : Prog B) : Prog unit := bind p (fun _ => Ret tt).

(** The state of a run: the world, what has been observed since the run
    began (oldest first), and the calls left suspended. *)
Record Run : Type := mkRun {
  world : World;
  seen : list Obs;
  pending : list Task
}.

Definition emit (os : list Obs) (r : Run) : Run :=
  mkRun (world r) (seen r ++ os) (pending r).

(** [start p r]: the synchronous part of an [async] call.  It runs up to
    the first [await]: the awaited call is issued, and the rest is left
    suspended.  A call that settles without awaiting anything is done. *)
Fixpoint start {A : Type} (p : Prog A) (r : Run) : option (Settled A) * Run :=
  match p with
  | Ret a => (Some (Fulfilled a), r)
  | Throw e => (Some (Rejected e), r)
  | Do o k =>
      let '(x, w, os) := perform o (world r) in
      start (k x) (mkRun w (seen r ++ os) (pending r))
  | Await e k =>
      (None, mkRun (world r) (seen r ++ [ObsCall e])
                   (pending r ++ [mkTask e (fun x => ignore (k x))]))
  | Fork q k =>
      let '(s, r1) := start q r in
      let r2 := match s with
                | Some (Rejected e) => emit [ObsUnhandledRejection e] r1
                | _ => r1
                end in
      start k r2
  end.

(** The environment: how an awaited promise settles, given all that has
    been observed so far. *)
Definition Env : Type := forall X : Type, Ext X -> list Obs -> Settled X.

Section Running.

Variable env : Env.
(** What had been observed before the run began. *)
Variable history : list Obs.

(** [run p r]: the [async] call [p] run until its promise settles.
    Every awaited promise is settled by the environment.  A call that
    is forked on the way is started and left suspended in [pending]:
    it resumes only in a later turn of the event loop ([resume]). *)
Fixpoint run {A : Type} (p : Prog A) (r : Run) : Settled A * Run :=
  match p with
  | Ret a => (Fulfilled a, r)
  | Throw e => (Rejected e, r)
  | Do o k =>
      let '(x, w, os) := perform o (world r) in
      run (k x) (mkRun w (seen r ++ os) (pending r))
  | Await e k =>
      let r1 := emit [ObsCall e] r in
      let a := env e (history ++ seen r1) in
      let r2 := emit [ObsSettle e a] r1 in
      match a with
      | Fulfilled x => run (k x) r2
      | Rejected err => (Rejected err, r2)
      end
  | Fork q k =>
      let '(s, r1) := start q r in
      let r2 := match s with
                | Some (Rejected e) => emit [ObsUnhandledRejection e] r1
                | _ => r1
                end in
      run k r2
  end.

(** A later turn of the event loop: the promise a suspended call waits
    for settles and the call runs on.  Nobody holds its promise, so a
    rejection is an unhandled one. *)
Definition resume (t : Task) (r : Run) : Run :=
  let a := env (task_waits t) (history ++ seen r) in
  let r1 := emit [ObsSettle (task_waits t) a] r in
  match a with
  | Fulfilled x =>
      match run (task_cont t x) r1 with
      | (Fulfilled _, r2) => r2
      | (Rejected err, r2) => emit [ObsUnhandledRejection err] r2
      end
  | Rejected err => emit [ObsUnhandledRejection err] r1
  end.

(** A call made on world [w] with nothing pending. *)
Definition exec {A : Type} (p : Prog A) (w : World) : Settled A * Run :=
  run p (mkRun w [] []).

End Running.

(** ** The client *)

(** [a || b] on a string that may be [undefined]: the empty string is
    falsy too. *)
Definition or_else (a : option string) (b : string) : string :=
  match a with
  | Some EmptyString => b
  | Some s => s
  | None => b
  end.

(** [Uint8Array.prototype.slice] with non-negative bounds: both are
    clamped to the length of the array. *)
Definition slice (a : bytes) (from to : nat) : bytes :=
  firstn (to - from) (skipn from a).
Definition slice_from (a : bytes) (from : nat) : bytes := skipn from a.

(** Modelled from the spec: [ABconcat] of cs-crypto is not among the
    sources; the registration request carries the salt followed by the
    authentication key. *)
Definition ABconcat (a b : bytes) : bytes := a ++ b.

Definition AUTHKEY_SIZE : Z := 32.
Definition CSRF_TOKEN_KEY : string := "CSRF-Token".

Definition json_headers : list (string * option string) :=
  [("Content-Type", Some "application/json")].

Section Client.

(** [process.env.NODE_ENV === 'development'] *)
Variable development : bool.
(** The text codec of cs-crypto for binary data. *)
Variable encode : bytes -> string.
Variable decode : string -> bytes.

Definition route (path : string) : string :=
  if development then String.append "http://localhost:3030/api" path
  else String.append "https://api.csplan.co" path.

(** [LoginActions.hashPassword] *)
Definition hashPassword (password : string) (salt : bytes) : Prog bytes :=
  let* hp := perform_ get_hashParams in
  let* _ := perform_ (worker_postMessage (Hash2i
    {| hr_password := password;
       hr_salt := salt;
       hr_timeCost := timeCost hp;
       hr_memoryCost := memoryCost hp;
       hr_threads := threads hp;
       hashLen := AUTHKEY_SIZE |})) in
  let* message := await listen_nextMessage in
  if negb (Z.eqb (code message) ARGON2_OK)
  then Throw (Error "Error running argon2.")
  else Ret (msg_body message).

(** [LoginActions.authenticate]; [reuseAuthKey] defaults to [false]. *)
Definition authenticate (user : AuthUser) (reuseAuthKey : bool)
  : Prog AuthConditions :=
  let* _ := perform_ (onMessage "Requesting authentication challenge") in
  let challengeRequest := mkChallengeRequest (email user) (totp user) in
  let* res := await (fetch (route "/challenge?action=request")
    {| method := POST;
       headers := json_headers;
       credentials := None;
       req_body := Some (JSON_ChallengeRequest challengeRequest) |}) in
  if Z.eqb (status res) 412 then Ret TOTPRequired
  else if negb (Z.eqb (status res) 201) then
    let* err := await (res_json_Error res) in
    Throw (Error (or_else (message err)
                    "Unknown error requesting an auth challenge"))
  else
    let* challenge := await (res_json_Challenge res) in
    let* _ := perform_ (set_hashParams (ch_hashParams challenge)) in
    let salt := decode (ch_salt challenge) in
    let* _ :=
      if reuseAuthKey
      then perform_ (onMessage "Using already generated authentication key")
      else
        let* _ := perform_ (onMessage "Generating authentication key") in
        let* material := hashPassword (password user) salt in
        perform_ (set_authKeyMaterial (Some material)) in
    let* _ := perform_ (onMessage "Solving authentication challenge") in
    let* material := perform_ get_authKeyMaterial in
    let* authKey := await (subtle_importKey "raw" material "AES-CTR" false
                        ["decrypt"]) in
    let challengeData := decode (ch_data challenge) in
    let iv := slice challengeData 0 16 in
    let encrypted := slice_from challengeData 16 in
    let* decrypted := await (subtle_decrypt
      {| alg_name := "AES-CTR"; counter := iv; ctr_length := 64 |}
      authKey encrypted) in
    let* _ := perform_ (onMessage "Submitting solved challenge") in
    let* res := await (fetch
      (route (String.append "/challenge/"
                (String.append (ch_id challenge) "?action=submit")))
      {| method := POST;
         headers := json_headers;
         credentials := None;
         req_body := Some (JSON_SolvedChallenge
                             (mkSolved (encode decrypted))) |}) in
    if Z.eqb (status res) 401 then
      Throw (Error "Authentication failure, password is incorrect.")
    else if negb (Z.eqb (status res) 200) then
      let* err := await (res_json_Error res) in
      Throw (Error (or_else (message err) "Error submitting challenge."))
    else
      let* _ := perform_ (onMessage "Successfully authenticated") in
      let* response := await (res_json_ChallengeResponse res) in
      let* _ := perform_ (localStorage_setItem CSRF_TOKEN_KEY (CSRFtoken response)) in
      let* _ := perform_ (userStore_login (mkUser (email user) (rs_id response))) in
      Ret Success.

(** [LoginActions.retrieveMasterKeypair] *)
Definition retrieveMasterKeypair (password : string) : Prog unit :=
  let* token := perform_ (localStorage_getItem CSRF_TOKEN_KEY) in
  let* res := await (fetch (route "/keys")
    {| method := GET;
       headers := json_headers ++ [("CSRF-Token", token)];
       credentials := Some "include";
       req_body := None |}) in
  if negb (Z.eqb (status res) 200) then
    let* err := await (res_json_Error res) in
    Throw (Error (or_else (message err) "Failed to fetch master keypair"))
  else
    let* keys := await (res_json_MasterKeys res) in
    let* publicKey := await (rsa_importPublicKey (mk_publicKey keys)) in
    let* _ := perform_ (set_hashParams (mk_hashParams keys)) in
    let* _ := perform_ (onMessage "Decryting master keypair") in
    let* tempKeyMaterial := hashPassword password (decode (hashSalt keys)) in
    let* tempKey := await (aes_importKeyMaterial tempKeyMaterial AES_GCM) in
    let* _ := perform_ (console_log (mk_privateKey keys)) in
    let* privateKey := await (rsa_unwrapPrivateKey (mk_privateKey keys) tempKey) in
    let* store := perform_ userStore_get in
    let userID := u_id (user store) in
    await (db_addToStore "keys" (mkKeyRecord userID publicKey privateKey)).

(** [RegisterActions.register].  [this.authKeyMaterial] in the request
    is the digest assigned two statements earlier.  The last statement
    calls [authenticate] without awaiting it. *)
Definition register (user : AuthUser) (salt : bytes) : Prog unit :=
  let* _ := perform_ (onMessage "Generating authentication key") in
  let* material := hashPassword (password user) salt in
  let* _ := perform_ (set_authKeyMaterial (Some material)) in
  let* hp := perform_ get_hashParams in
  let* _ := perform_ (set_hashParams
    (mkHashParams (hp_type hp) (timeCost hp) (memoryCost hp) (threads hp)
                  (Z.of_nat (length salt)))) in
  let* hp := perform_ get_hashParams in
  let* res := await (fetch (route "/register")
    {| method := POST;
       headers := json_headers;
       credentials := None;
       req_body := Some (JSON_RegisterRequest
         {| rr_email := email user;
            rr_key := encode (ABconcat salt material);
            rr_hashParams := hp |}) |}) in
  if negb (Z.eqb (status res) 201) then
    let* err := await (res_json_Error res) in
    Throw (Error (or_else (message err) "Failed to register account"))
  else
    let* response := await (res_json_ChallengeResponse res) in
    let* _ := perform_ (userStore_login (mkUser (email user) (rs_id response))) in
    let* _ := perform_ (localStorage_setItem CSRF_TOKEN_KEY (CSRFtoken response)) in
    let* _ := detach (authenticate user true) in
    Ret tt.

(** [RegisterActions.generateMasterKeypair]; [keysize] defaults to
    4096.  The write to IndexedDB that ends it is not awaited. *)
Definition generateMasterKeypair (password : string) (salt : bytes)
    (keysize : Z) : Prog unit :=
  let* _ := perform_ (onMessage "Generating master keypair") in
  let* tempKeyMaterial := hashPassword password salt in
  let* tempKey := await (aes_importKeyMaterial tempKeyMaterial AES_GCM) in
  let* pair := await (rsa_generateKeypair keysize) in
  let* exportedPublicKey := await (rsa_exportPublicKey (publicKey pair)) in
  let* encryptedPrivateKey := await (rsa_wrapPrivateKey (privateKey pair) tempKey) in
  let* token := perform_ (localStorage_getItem CSRF_TOKEN_KEY) in
  match token with
  | None => Throw (Error "Failed to retrieve CSRF-Token from localstorage.")
  | Some token =>
      let* hp := perform_ get_hashParams in
      let* res := await (fetch (route "/keys")
        {| method := POST;
           headers := json_headers ++ [("CSRF-Token", Some token)];
           credentials := Some "include";
           req_body := Some (JSON_MasterKeys
             {| mk_publicKey := exportedPublicKey;
                mk_privateKey := encryptedPrivateKey;
                hashSalt := encode salt;
                mk_hashParams := hp |}) |}) in
      if negb (Z.eqb (status res) 201) then
        let* err := await (res_json_Error res) in
        Throw (Error (or_else (message err) "Failed to store master keypair"))
      else
        let* store := perform_ userStore_get in
        let userID := u_id (user store) in
        detach (await (db_addToStore "keys"
          (mkKeyRecord userID (publicKey pair) (privateKey pair))))
  end.

End Client.

Arguments route : simpl never.
Arguments or_else !a b.

(** ** Views of a trace *)

(** The hash requests posted to the worker. *)
Definition posts (os : list Obs) : list Argon2_HashRequest :=
  flat_map (fun o => match o with
                     | ObsPost (Hash2i b) => [b]
                     | _ => []
                     end) os.

(** The requests sent to the server. *)
Definition requests (os : list Obs) : list (string * RequestInit) :=
  flat_map (fun o => match o with
                     | ObsCall (fetch url init) => [(url, init)]
                     | _ => []
                     end) os.

(** The requests the server has answered, each with its response. *)
Definition responses (os : list Obs) : list (string * RequestInit * Response) :=
  flat_map (fun o =>
    match o with
    | @ObsSettle X e a =>
        match e in Ext T return Settled T -> list (string * RequestInit * Response) with
        | fetch url init =>
            fun a => match a with
                     | Fulfilled res => [(url, init, res)]
                     | Rejected _ => []
                     end
        | _ => fun _ => []
        end a
    | _ => []
    end) os.

(** The error bodies read from responses. *)
Definition error_bodies (os : list Obs) : list (Response * ErrorResponse) :=
  flat_map (fun o =>
    match o with
    | @ObsSettle X e a =>
        match e in Ext T return Settled T -> list (Response * ErrorResponse) with
        | res_json_Error res =>
            fun a => match a with
                     | Fulfilled err => [(res, err)]
                     | Rejected _ => []
                     end
        | _ => fun _ => []
        end a
    | _ => []
    end) os.

(** The challenges read from responses. *)
Definition challenges (os : list Obs) : list Challenge :=
  flat_map (fun o =>
    match o with
    | @ObsSettle X e a =>
        match e in Ext T return Settled T -> list Challenge with
        | res_json_Challenge res =>
            fun a => match a with
                     | Fulfilled c => [c]
                     | Rejected _ => []
                     end
        | _ => fun _ => []
        end a
    | _ => []
    end) os.

(** The key material handed to [crypto.subtle.importKey]. *)
Definition imported (os : list Obs) : list (option bytes) :=
  flat_map (fun o => match o with
                     | ObsCall (subtle_importKey _ material _ _ _) => [material]
                     | _ => []
                     end) os.

(** The writes of the session: token and identity. *)
Definition session_writes (os : list Obs) : list Obs :=
  List.filter (fun o => match o with
                   | ObsSetItem _ _ | ObsLogin _ => true
                   | _ => false
                   end) os.

(** The keys [crypto.subtle.importKey] has returned, each with the
    arguments of the call. *)
Definition import_results (os : list Obs)
  : list (string * option bytes * string * bool * list string * CryptoKey) :=
  flat_map (fun o =>
    match o with
    | @ObsSettle X e a =>
        match e in Ext T return Settled T -> list _ with
        | subtle_importKey f m alg ex us =>
            fun a => match a with
                     | Fulfilled k => [(f, m, alg, ex, us, k)]
                     | Rejected _ => []
                     end
        | _ => fun _ => []
        end a
    | _ => []
    end) os.

(** The calls of [crypto.subtle.decrypt]. *)
Definition decryptions (os : list Obs) : list (AesCtrParams * CryptoKey * bytes) :=
  flat_map (fun o => match o with
                     | ObsCall (subtle_decrypt alg key data) => [(alg, key, data)]
                     | _ => []
                     end) os.

(** The digests the worker has delivered. *)
Definition digests (os : list Obs) : list Argon2_Message :=
  flat_map (fun o =>
    match o with
    | @ObsSettle X e a =>
        match e in Ext T return Settled T -> list Argon2_Message with
        | listen_nextMessage =>
            fun a => match a with
                     | Fulfilled m => [m]
                     | Rejected _ => []
                     end
        | _ => fun _ => []
        end a
    | _ => []
    end) os.

(** The key pairs generated. *)
Definition generated (os : list Obs) : list CryptoKeyPair :=
  flat_map (fun o =>
    match o with
    | @ObsSettle X e a =>
        match e in Ext T return Settled T -> list CryptoKeyPair with
        | rsa_generateKeypair _ =>
            fun a => match a with
                     | Fulfilled p => [p]
                     | Rejected _ => []
                     end
        | _ => fun _ => []
        end a
    | _ => []
    end) os.

(** The private keys wrapped: the key, the wrapping key, the ciphertext. *)
Definition wrapped (os : list Obs) : list (CryptoKey * CryptoKey * string) :=
  flat_map (fun o =>
    match o with
    | @ObsSettle X e a =>
        match e in Ext T return Settled T -> list (CryptoKey * CryptoKey * string) with
        | rsa_wrapPrivateKey k t =>
            fun a => match a with
                     | Fulfilled c => [(k, t, c)]
                     | Rejected _ => []
                     end
        | _ => fun _ => []
        end a
    | _ => []
    end) os.

(** The private keys unwrapped: the ciphertext, the wrapping key, the key. *)
Definition unwrapped (os : list Obs) : list (string * CryptoKey * CryptoKey) :=
  flat_map (fun o =>
    match o with
    | @ObsSettle X e a =>
        match e in Ext T return Settled T -> list (string * CryptoKey * CryptoKey) with
        | rsa_unwrapPrivateKey c t =>
            fun a => match a with
                     | Fulfilled k => [(c, t, k)]
                     | Rejected _ => []
                     end
        | _ => fun _ => []
        end a
    | _ => []
    end) os.

(** The public keys exported: the key and its encoding. *)
Definition exported (os : list Obs) : list (CryptoKey * string) :=
  flat_map (fun o =>
    match o with
    | @ObsSettle X e a =>
        match e in Ext T return Settled T -> list (CryptoKey * string) with
        | rsa_exportPublicKey k =>
            fun a => match a with
                     | Fulfilled c => [(k, c)]
                     | Rejected _ => []
                     end
        | _ => fun _ => []
        end a
    | _ => []
    end) os.

(** The session bodies ([{id, CSRFtoken}]) read from responses. *)
Definition session_bodies (os : list Obs) : list (Response * ChallengeResponse) :=
  flat_map (fun o =>
    match o with
    | @ObsSettle X e a =>
        match e in Ext T return Settled T -> list (Response * ChallengeResponse) with
        | res_json_ChallengeResponse res =>
            fun a => match a with
                     | Fulfilled b => [(res, b)]
                     | Rejected _ => []
                     end
        | _ => fun _ => []
        end a
    | _ => []
    end) os.

(** The wrapped key pairs read from responses. *)
Definition master_keys (os : list Obs) : list MasterKeys :=
  flat_map (fun o =>
    match o with
    | @ObsSettle X e a =>
        match e in Ext T return Settled T -> list MasterKeys with
        | res_json_MasterKeys _ =>
            fun a => match a with
                     | Fulfilled k => [k]
                     | Rejected _ => []
                     end
        | _ => fun _ => []
        end a
    | _ => []
    end) os.

(** The writes to IndexedDB that were issued. *)
Definition stores (os : list Obs) : list (string * KeyRecord) :=
  flat_map (fun o => match o with
                     | ObsCall (db_addToStore store record) => [(store, record)]
                     | _ => []
                     end) os.

(** The rejections nobody handled. *)
Definition unhandled (os : list Obs) : list JsError :=
  flat_map (fun o => match o with
                     | ObsUnhandledRejection e => [e]
                     | _ => []
                     end) os.

(** The paths of the two requests of a login. *)
Definition challenge_request_path : string := "/challenge?action=request".
Definition challenge_submit_path (id : string) : string :=
  String.append "/challenge/" (String.append id "?action=submit").

(** The hash a call asks for, with the cost parameters the object holds
    when the call is made. *)
Definition hash_request (w : World) (password : string) (salt : bytes)
  : Argon2_HashRequest :=
  {| hr_password := password;
     hr_salt := salt;
     hr_timeCost := timeCost (hashParams w);
     hr_memoryCost := memoryCost (hashParams w);
     hr_threads := threads (hashParams w);
     hashLen := 32 |}.

(** ** The calls a page can make on a [RegisterActions] object *)

Inductive Call : Type :=
| call_authenticate (user : AuthUser) (reuseAuthKey : bool)
| call_retrieveMasterKeypair (password : string)
| call_register (user : AuthUser) (salt : bytes)
| call_generateMasterKeypair (password : string) (salt : bytes) (keysize : Z).

Section Calls.

Variable development : bool.
Variable encode : bytes -> string.
Variable decode : string -> bytes.
Variable env : Env.
Variable history : list Obs.

Definition call_prog (c : Call) : Prog unit :=
  match c with
  | call_authenticate user reuse =>
      ignore (authenticate development encode decode user reuse)
  | call_retrieveMasterKeypair password =>
      retrieveMasterKeypair development decode password
  | call_register user salt =>
      register development encode decode user salt
  | call_generateMasterKeypair password salt keysize =>
      generateMasterKeypair development encode password salt keysize
  end.

(** The turn of the event loop after a call has settled: the calls it
    left suspended are resumed, in the order they were started. *)
Definition next_turn (r : Run) : Run :=
  fold_left (fun r t => resume env history t r) (pending r)
            (mkRun (world r) (seen r) []).

(** A call and all it set off, run to the end. *)
Definition complete (c : Call) (w : World) : Run :=
  next_turn (snd (exec env history (call_prog c) w)).

End Calls.

(** ** A scripted environment, for running the client *)

Module Sample.

Record Script : Type := mkScript {
  challenge_status : Z;
  submit_status : Z;
  register_status : Z;
  keys_status : Z;
  worker_code : Z;
  server_message : option string;
  challenge : Challenge
}.

Definition last_post (os : list Obs) : option Argon2_HashRequest :=
  List.last (map Some (posts os)) None.

(** A toy digest, so that the worker's answer depends on its request. *)
Definition digest (r : Argon2_HashRequest) : bytes :=
  list_byte_of_string (hr_password r) ++ hr_salt r.

Definition scripted (s : Script) : Env :=
  fun X e os =>
    match e in Ext T return Settled T with
    | fetch url init =>
        Fulfilled (mkResponse
          match req_body init with
          | Some (JSON_ChallengeRequest _) => challenge_status s
          | Some (JSON_SolvedChallenge _) => submit_status s
          | Some (JSON_RegisterRequest _) => register_status s
          | Some (JSON_MasterKeys _) => keys_status s
          | None => keys_status s
          end)
    | res_json_Error _ => Fulfilled (mkErrorResponse (server_message s))
    | res_json_Challenge _ => Fulfilled (challenge s)
    | res_json_ChallengeResponse _ =>
        Fulfilled (mkChallengeResponse "user-1" "token-1")
    | res_json_MasterKeys _ =>
        Fulfilled (mkMasterKeys "spki" "wrapped" "wrapsalt"
                     (mkHashParams "argon2i" 2 65536 1 16))
    | listen_nextMessage =>
        Fulfilled (mkMessage (worker_code s)
                     match last_post os with
                     | Some r => digest r
                     | None => []
                     end)
    | subtle_importKey _ _ _ _ _ => Fulfilled (mkCryptoKey 1)
    | subtle_decrypt _ _ data => Fulfilled data
    | aes_importKeyMaterial _ _ => Fulfilled (mkCryptoKey 2)
    | rsa_importPublicKey _ => Fulfilled (mkCryptoKey 3)
    | rsa_exportPublicKey _ => Fulfilled "spki"
    | rsa_generateKeypair _ => Fulfilled (mkKeyPair (mkCryptoKey 3) (mkCryptoKey 4))
    | rsa_wrapPrivateKey _ _ => Fulfilled "wrapped"
    | rsa_unwrapPrivateKey _ _ => Fulfilled (mkCryptoKey 4)
    | db_addToStore _ _ => Fulfilled tt
    end.

Definition default_hashParams : Argon2HashParams :=
  mkHashParams "argon2i" 1 (128 * 1024) 1 16.

Definition server_hashParams : Argon2HashParams :=
  mkHashParams "argon2i" 3 65536 1 16.

Definition a_challenge : Challenge :=
  mkChallenge "c7" "0123456789abcdefPAYLOAD" "pepper" server_hashParams.

Definition happy : Script :=
  mkScript 201 200 201 201 0 None a_challenge.

(** A freshly constructed object in a fresh browser session. *)
Definition fresh : World :=
  mkWorld default_hashParams None ∅ (mkUserStore (mkUser "" "") false).

Definition alice : AuthUser := mkAuthUser "a@b.com" "correct horse" None.

Definition a_salt : bytes := list_byte_of_string "0123456789abcdef".
Definition another_salt : bytes := list_byte_of_string "fedcba9876543210".

(** A codec that reads the text as its bytes. *)
Definition enc : bytes -> string := string_of_list_byte.
Definition dec : string -> bytes := list_byte_of_string.

(** The server rejects the solution: wrong password. *)
Definition wrong_password : Script :=
  mkScript 201 401 201 201 0 None a_challenge.

(** The server rejects the solution for another reason. *)
Definition submit_refused : Script :=
  mkScript 201 503 201 201 0 (Some "try later") a_challenge.

(** The account asks for a second factor. *)
Definition totp_needed : Script :=
  mkScript 412 200 201 201 0 None a_challenge.

(** The server refuses to issue a challenge. *)
Definition no_challenge : Script :=
  mkScript 500 200 201 201 0 (Some "out of order") a_challenge.

(** A challenge whose decoded data has three bytes. *)
Definition short_challenge : Script :=
  mkScript 201 200 201 201 0 None
    (mkChallenge "c8" "abc" "pepper" server_hashParams).

(** A session: the token and the identity are stored. *)
Definition logged_in : World :=
  mkWorld default_hashParams None {[ CSRF_TOKEN_KEY := "token-1" ]}
    (mkUserStore (mkUser "a@b.com" "user-1") true).

(** An object that holds key material from an earlier derivation. *)
Definition with_material : World :=
  mkWorld default_hashParams (Some a_salt) ∅
    (mkUserStore (mkUser "" "") false).

(** The sample calls, each on a fresh history. *)
Abbreviation login s w reuse :=
  (exec (scripted s) [] (authenticate false enc dec alice reuse) w).

Abbreviation registration s :=
  (exec (scripted s) [] (register false enc dec alice a_salt) fresh).

Abbreviation key_generation s w salt :=
  (exec (scripted s) []
     (generateMasterKeypair false enc "correct horse" salt 4096) w).

Abbreviation key_retrieval s w :=
  (exec (scripted s) [] (retrieveMasterKeypair false dec "correct horse") w).

(** The turn of the event loop after a sample call. *)
Abbreviation afterwards s r := (next_turn (scripted s) [] r).

End Sample.

(** ** Further views of a trace *)

(** The decryptions that have succeeded: the parameters, the key, the
    data and the plaintext. *)
Definition decrypt_results (os : list Obs)
  : list (AesCtrParams * CryptoKey * bytes * bytes) :=
  flat_map (fun o =>
    match o with
    | @ObsSettle X e a =>
        match e in Ext T return Settled T -> list _ with
        | subtle_decrypt alg key data =>
            fun a => match a with
                     | Fulfilled plain => [(alg, key, data, plain)]
                     | Rejected _ => []
                     end
        | _ => fun _ => []
        end a
    | _ => []
    end) os.

(** The bodies of the requests sent to the server. *)
Definition bodies (os : list Obs) : list Json :=
  flat_map (fun q : string * RequestInit =>
              match req_body (snd q) with
              | Some b => [b]
              | None => []
              end) (requests os).

(** The paths the client asks the server for. *)
Definition api_path (path : string) : Prop :=
  path = "/register" \/ path = "/keys" \/
  path = challenge_request_path \/
  exists id, path = challenge_submit_path id.

(** What has been written to the console. *)
Definition consoles (os : list Obs) : list string :=
  flat_map (fun o => match o with
                     | ObsConsole s => [s]
                     | _ => []
                     end) os.

(** The error bodies that could not be read: the response, and what
    [res.json()] rejected with. *)
Definition unread_errors (os : list Obs) : list (Response * JsError) :=
  flat_map (fun o =>
    match o with
    | @ObsSettle X e a =>
        match e in Ext T return Settled T -> list (Response * JsError) with
        | res_json_Error res =>
            fun a => match a with
                     | Fulfilled _ => []
                     | Rejected err => [(res, err)]
                     end
        | _ => fun _ => []
        end a
    | _ => []
    end) os.

(** What the awaited promises have rejected with. *)
Definition rejections (os : list Obs) : list JsError :=
  flat_map (fun o => match o with
                     | ObsSettle _ (Rejected err) => [err]
                     | _ => []
                     end) os.

(** The digests handed to [aes.importKeyMaterial]. *)
Definition temp_key_imports (os : list Obs) : list bytes :=
  flat_map (fun o => match o with
                     | ObsCall (aes_importKeyMaterial material _) => [material]
                     | _ => []
                     end) os.

(** The public keys handed to [rsa.importPublicKey]. *)
Definition public_key_imports (os : list Obs) : list string :=
  flat_map (fun o => match o with
                     | ObsCall (rsa_importPublicKey spki) => [spki]
                     | _ => []
                     end) os.

(** *** A call among other calls *)

Section Interference.

Variable env : Env.
Variable history : list Obs.

(** While a call waits for a promise, the other calls of the page that
    are suspended may run on: [others] is what they have done to the
    object, to [localStorage] and to the user store by the time the call
    resumes, given all that the call has seen so far.  What they send
    and receive is not recorded in the trace of the call. *)
Variable others : list Obs -> World -> World.

Fixpoint run_among {A : Type} (p : Prog A) (r : Run) : Settled A * Run :=
  match p with
  | Ret a => (Fulfilled a, r)
  | Throw e => (Rejected e, r)
  | Do o k =>
      let '(x, w, os) := perform o (world r) in
      run_among (k x) (mkRun w (seen r ++ os) (pending r))
  | Await e k =>
      let r1 := emit [ObsCall e] r in
      let a := env e (history ++ seen r1) in
      let r2 := emit [ObsSettle e a] r1 in
      let r3 := mkRun (others (history ++ seen r2) (world r2)) (seen r2)
                      (pending r2) in
      match a with
      | Fulfilled x => run_among (k x) r3
      | Rejected err => (Rejected err, r3)
      end
  | Fork q k =>
      let '(s, r1) := start q r in
      let r2 := match s with
                | Some (Rejected e) => emit [ObsUnhandledRejection e] r1
                | _ => r1
                end in
      run_among k r2
  end.

Definition exec_among {A : Type} (p : Prog A) (w : World) : Settled A * Run :=
  run_among p (mkRun w [] []).

End Interference.

(** The cost parameters of a hash. *)
Definition cost (p : Argon2HashParams) : Z * Z * Z :=
  (timeCost p, memoryCost p, threads p).

(** ** The typed accessors of [localStorage] ([db/storage.ts]) *)

Module Storage.

(** A JavaScript number as [parseInt] can return it: [NaN], a double
    that holds the integer [z], the negative zero, or an infinity. *)
Inductive JsNumber : Type :=
| NaN
| Int (z : Z)
| NegativeZero
| Infinity (negative : bool).

(** The integers a number holds exactly. *)
Definition safe_integer (z : Z) : Prop :=
  - (2 ^ 53 - 1) <= z <= 2 ^ 53 - 1.

(** [Number.prototype.toString] on an integer below 10^21: its decimal
    digits, after a minus sign when it is negative. *)
Definition toString (z : Z) : string :=
  match z with
  | Z0 => "0"
  | Zpos p => NilEmpty.string_of_uint (Pos.to_uint p)
  | Zneg p => String "-" (NilEmpty.string_of_uint (Pos.to_uint p))
  end.

(** Strings hold their text in UTF-8.  The white space [parseInt]
    skips is that of [StrWhiteSpaceChar]: tab, line feed, vertical tab,
    form feed, carriage return and space; then U+00A0; U+1680; U+2000 to
    U+200A, U+2028, U+2029, U+202F and U+205F; U+3000; U+FEFF. *)
Definition is_whitespace (c : ascii) : bool :=
  let code := N_of_ascii c in
  ((9 <=? code)%N && (code <=? 13)%N) || (code =? 32)%N.

Definition is_whitespace2 (c1 c2 : ascii) : bool :=
  (N_of_ascii c1 =? 194)%N && (N_of_ascii c2 =? 160)%N.

Definition is_whitespace3 (c1 c2 c3 : ascii) : bool :=
  let '(a, b, c) := (N_of_ascii c1, N_of_ascii c2, N_of_ascii c3) in
  ((a =? 225)%N && (b =? 154)%N && (c =? 128)%N) ||
  ((a =? 226)%N && (b =? 128)%N &&
   (((128 <=? c)%N && (c <=? 138)%N) || (c =? 168)%N || (c =? 169)%N ||
    (c =? 175)%N)) ||
  ((a =? 226)%N && (b =? 129)%N && (c =? 159)%N) ||
  ((a =? 227)%N && (b =? 128)%N && (c =? 128)%N) ||
  ((a =? 239)%N && (b =? 187)%N && (c =? 191)%N).

Fixpoint trim_start (s : string) : string :=
  match s with
  | EmptyString => EmptyString
  | String c1 s1 =>
      if is_whitespace c1 then trim_start s1
      else
        match s1 with
        | EmptyString => s
        | String c2 s2 =>
            if is_whitespace2 c1 c2 then trim_start s2
            else
              match s2 with
              | EmptyString => s
              | String c3 s3 =>
                  if is_whitespace3 c1 c2 c3 then trim_start s3 else s
              end
        end
  end.

(** The value of a character as a digit: [0] to [9], then the letters
    of either case from 10 on. *)
Definition digit_of (c : ascii) : option N :=
  let code := N_of_ascii c in
  if (48 <=? code)%N && (code <=? 57)%N then Some (code - 48)%N
  else if (97 <=? code)%N && (code <=? 122)%N then Some (code - 87)%N
  else if (65 <=? code)%N && (code <=? 90)%N then Some (code - 55)%N
  else None.

Definition digit_value (radix : N) (c : ascii) : option N :=
  match digit_of c with
  | Some d => if (d <? radix)%N then Some d else None
  | None => None
  end.

(** The value of the longest prefix of digits; [None] while no digit has
    been read. *)
Fixpoint scan (radix : N) (s : string) (acc : option N) : option N :=
  match s with
  | EmptyString => acc
  | String c s' =>
      match digit_value radix c with
      | Some d => scan radix s' (Some (radix * default 0 acc + d))%N
      | None => acc
      end
  end.

(** The double nearest to a natural number, ties to the even mantissa;
    [None] when it is beyond the doubles, which makes an infinity. *)
Definition to_double (n : N) : option N :=
  if (n <? 2 ^ 53)%N then Some n
  else
    let e := (N.log2 n - 52)%N in
    let q := N.shiftr n e in
    let rest := (n - N.shiftl q e)%N in
    let half := (2 ^ (e - 1))%N in
    let q' := if (half <? rest)%N || ((rest =? half)%N && N.odd q)
              then (q + 1)%N else q in
    let v := N.shiftl q' e in
    if (v <? 2 ^ 1024)%N then Some v else None.

(** [parseInt(s)], no radix given: white space, a sign, [0x] for
    hexadecimal, then digits as far as they go, and the number for the
    integer they write.  For more than 20 significant decimal digits the
    language lets an engine round less exactly than this. *)
Definition parseInt (s : string) : JsNumber :=
  let s := trim_start s in
  let '(negative, s) :=
    match s with
    | String "-" s' => (true, s')
    | String "+" s' => (false, s')
    | _ => (false, s)
    end in
  let '(radix, s) :=
    match s with
    | String "0" (String "x" s') | String "0" (String "X" s') => (16%N, s')
    | _ => (10%N, s)
    end in
  match scan radix s None with
  | None => NaN
  | Some 0%N => if negative : bool then NegativeZero else Int 0
  | Some v =>
      match to_double v with
      | Some d => Int (if negative : bool then - Z.of_N d else Z.of_N d)
      | None => Infinity negative
      end
  end.

(** [null] as [parseInt] reads it. *)
Definition string_of_item (item : option string) : string :=
  match item with
  | Some s => s
  | None => "null"
  end.

(** The keys of [localStorage] ([enum Keys]). *)
Definition Keys_CSRF : string := "CSRF-Token".
Definition Keys_User : string := "user".
Definition Keys_AuthLevel : string := "authlevel".

Section Accessors.

(** The type of a user, and [JSON.stringify] and [JSON.parse] on it:
    [JSON.parse] may throw, and may return [null]. *)
Variable UserT : Type.
Variable JSON_stringify : UserT -> string.
Variable JSON_parse : string -> Settled (option UserT).

Definition getCSRFtoken (ls : gmap string string) : option string :=
  ls !! Keys_CSRF.

Definition setCSRFtoken (token : string) (ls : gmap string string)
  : gmap string string :=
  <[Keys_CSRF := token]> ls.

Definition getUser (ls : gmap string string) : Settled (option UserT) :=
  JSON_parse (string_of_item (ls !! Keys_User)).

Definition setUser (u : UserT) (ls : gmap string string)
  : gmap string string :=
  <[Keys_User := JSON_stringify u]> ls.

Definition getAuthLevel (ls : gmap string string) : JsNumber :=
  parseInt (string_of_item (ls !! Keys_AuthLevel)).

Definition setAuthLevel (authLevel : Z) (ls : gmap string string)
  : gmap string string :=
  <[Keys_AuthLevel := toString authLevel]> ls.

End Accessors.

End Storage.

(** ** Further scripted runs *)

Module Scenes.

Import Sample.

(** The worker fails. *)
Definition worker_down : Script :=
  mkScript 201 200 201 201 (-1) None a_challenge.

(** The server refuses the registration. *)
Definition registration_refused : Script :=
  mkScript 201 200 409 201 0 (Some "taken") a_challenge.

(** The server refuses the upload of the key pair, and the download. *)
Definition keys_refused : Script :=
  mkScript 201 200 201 403 0 None a_challenge.

(** The server hands out the key pair: 200 on [/keys]. *)
Definition keys_served : Script :=
  mkScript 201 200 201 200 0 None a_challenge.

(** The digest of the scripted worker for the sample registration. *)
Definition sample_digest : bytes :=
  digest (hash_request fresh "correct horse" a_salt).

(** The key pair uploaded last. *)
Definition last_upload (os : list Obs) : option MasterKeys :=
  List.last (map (fun b => match b with
                           | JSON_MasterKeys k => Some k
                           | _ => None
                           end) (bodies os)) None.

(** A server that keeps the key pair it is sent and hands it out again;
    everything else goes as in the [happy] script. *)
Definition keeping_server : Env :=
  fun X e os =>
    match e in Ext T return Settled T -> Settled T with
    | fetch _ init =>
        fun _ => Fulfilled (mkResponse match method init with
                                       | GET => 200
                                       | POST => 201
                                       end)
    | res_json_MasterKeys _ =>
        fun _ => match last_upload os with
                 | Some k => Fulfilled k
                 | None => Rejected (Error "no key pair")
                 end
    | _ => fun otherwise => otherwise
    end (scripted happy e os).

(** A key pair generated and uploaded, then fetched back. *)
Abbreviation upload :=
  (exec keeping_server []
     (generateMasterKeypair false enc "correct horse" another_salt 4096)
     logged_in).

Abbreviation download :=
  (exec keeping_server (seen (snd upload))
     (retrieveMasterKeypair false dec "correct horse") logged_in).

Abbreviation call s c w :=
  (exec (scripted s) [] (call_prog false enc dec c) w).

(** No other call runs. *)
Definition alone (h : list Obs) (w : World) : World := w.

(** The login that the sample registration has left suspended runs on
    while the worker computes the hash of another call: it resumes when
    that call has its digest. *)
Definition login_resumes (h : list Obs) (w : World) : World :=
  match List.last h (ObsMessage "") with
  | @ObsSettle X e _ =>
      match e with
      | listen_nextMessage =>
          world (next_turn (scripted happy) h
                   (mkRun w [] (pending (snd (registration happy)))))
      | _ => w
      end
  | _ => w
  end.

(** A key pair generated and uploaded among other calls, on the object
    the sample registration has left, then fetched back. *)
Abbreviation upload_among others :=
  (exec_among keeping_server [] others
     (generateMasterKeypair false enc "correct horse" another_salt 4096)
     (world (snd (registration happy)))).

Abbreviation download_after others :=
  (exec_among keeping_server (seen (snd (upload_among others))) alone
     (retrieveMasterKeypair false dec "correct horse")
     (world (snd (upload_among others)))).

End Scenes.

(** ** The store of the user's name ([stores/user-name.ts]) *)

Module UserName.

Import Storage.

(** [Visibilities]: the store tells [Encrypted] from the rest. *)
Inductive Visibilities : Type :=
| Encrypted
| Unencrypted (level : Z).

Definition is_encrypted (v : Visibilities) : bool :=
  match v with
  | Encrypted => true
  | Unencrypted _ => false
  end.

Record NameVisibility : Type := mkVisibility {
  vis_firstName : Visibilities;
  vis_lastName : Visibilities
}.

(** [Name]: the state of the store, and the record cached in
    IndexedDB.  [DisplayNames] are numbers; the private one is read
    with [parseInt]. *)
Record Name : Type := mkName {
  n_id : string;
  n_firstName : string;
  n_lastName : string;
  n_username : string;
  n_displayName : Z;
  n_visibility : NameVisibility;
  n_privateDisplayName : option JsNumber;
  n_cryptoKey : option CryptoKey;
  n_checksum : string
}.

(** [NameData]: what [create] is given. *)
Record NameData : Type := mkNameData {
  d_firstName : string;
  d_lastName : string;
  d_username : string;
  d_displayName : Z;
  d_visibility : NameVisibility;
  d_privateDisplayName : option Z
}.

(** A property of an object read from JSON, where the code tells
    [undefined] (no such property) from [null]. *)
Inductive Field (A : Type) : Type :=
| Missing
| Null
| Given (a : A).
Arguments Missing {A}.
Arguments Null {A}.

(** [f !== undefined] *)
Definition is_defined {A : Type} (f : Field A) : bool :=
  match f with
  | Missing => false
  | _ => true
  end.

(** What [null] and a value are where a value is expected. *)
Definition value_of {A : Type} (f : Field A) : option A :=
  match f with
  | Given a => Some a
  | _ => None
  end.

(** [NameDocument]: the name as the server holds it; [meta.cryptoKey] is
    the wrapped key. *)
Record NameDocument : Type := mkNameDocument {
  doc_firstName : string;
  doc_lastName : string;
  doc_username : string;
  doc_privateDisplayName : option string;
  doc_displayName : Z;
  doc_visibility : NameVisibility;
  meta_cryptoKey : Field string;
  meta_checksum : string
}.

(** [NameDocument<NameMetaRequest>]: the name as it is sent; its [meta]
    holds the wrapped key only. *)
Record NameUpload : Type := mkNameUpload {
  up_firstName : string;
  up_lastName : string;
  up_username : string;
  up_privateDisplayName : option string;
  up_displayName : Z;
  up_visibility : NameVisibility;
  up_cryptoKey : option string
}.

(** [MetaResponse] *)
Record MetaResponse : Type := mkMetaResponse { mr_checksum : string }.

Inductive HttpMethod : Type := HttpGET | HttpPATCH | HttpDELETE.

Record NameRequest : Type := mkNameRequest {
  nr_method : HttpMethod;
  nr_headers : list (string * option string);
  nr_body : option NameUpload
}.

(** Synchronous operations: the closure's [initialized], the store's
    [set] and [localStorage.getItem]. *)
Inductive Op : Type -> Type :=
| get_initialized : Op bool
| set_initialized (b : bool) : Op unit
| store_set (n : Name) : Op unit
| localStorage_getItem (k : string) : Op (option string).

(** What is asked of the surroundings: the awaited promises, and
    [getUserID] of [$lib/session], which is not awaited but whose result,
    or exception, is not the store's to decide.  The key of
    [aes.encrypt] and [aes.decrypt] may be [undefined]: the source passes
    [cryptoKey!] unchecked. *)
Inductive Ext : Type -> Type :=
| getUserID : Ext string
| fetch (url : string) (init : NameRequest) : Ext Response
| res_json_NameDocument (res : Response) : Ext NameDocument
| res_json_MetaResponse (res : Response) : Ext MetaResponse
| HTTPerror (res : Response) (msg : string) : Ext string
| getByKey (store key : string) : Ext (option Name)
| mustGetByKey (store key : string) : Ext KeyRecord
| updateWithKey (store : string) (n : Name) : Ext unit
| addToStore (store : string) (n : Name) : Ext unit
| rsa_unwrapKey (wrapped : option string) (privateKey : CryptoKey)
    (alg : string)
  : Ext CryptoKey
| rsa_wrapKey (key publicKey : CryptoKey) : Ext string
| aes_generateKey (alg : string) : Ext CryptoKey
| aes_encrypt (plain : string) (key : option CryptoKey) : Ext string
| aes_decrypt (cipher : string) (key : option CryptoKey) : Ext string.

Inductive Prog (A : Type) : Type :=
| Ret (a : A)
| Throw (e : JsError)
| Do (X : Type) (o : Op X) (k : X -> Prog A)
| Await (X : Type) (e : Ext X) (k : X -> Prog A).
Arguments Throw {A} e.
Arguments Do {A X} o k.
Arguments Await {A X} e k.

Fixpoint bind {A B : Type} (p : Prog A) (f : A -> Prog B) : Prog B :=
  match p with
  | Ret a => f a
  | Throw e => Throw e
  | Do o k => Do o (fun x => bind (k x) f)
  | Await e k => Await e (fun x => bind (k x) f)
  end.

Definition perform_ {X : Type} (o : Op X) : Prog X := Do o (fun x => Ret x).
Definition await {X : Type} (e : Ext X) : Prog X := Await e (fun x => Ret x).

Declare Scope name_scope.
Delimit Scope name_scope with name.
Notation "'let*' x ':=' p 'in' q" := (bind p (fun x => q))
  (at level 10, x name, p at level 100, q at level 200) : name_scope.
Local Open Scope name_scope.

(** The closure of [create()], with what it reads of the session. *)
Record State : Type := mkState {
  initialized : bool;
  value : Name;
  localStorage : gmap string string
}.

(** What goes out, oldest first: the promises asked for, and how each
    settled. *)
Inductive Obs : Type :=
| ObsCall (X : Type) (e : Ext X)
| ObsSettle (X : Type) (e : Ext X) (r : Settled X).
Arguments ObsCall {X} e.
Arguments ObsSettle {X} e r.

Definition perform {X : Type} (o : Op X) (s : State) : X * State :=
  match o in Op T return T * State with
  | get_initialized => (initialized s, s)
  | set_initialized b =>
      (tt, mkState b (value s) (localStorage s))
  | store_set n =>
      (tt, mkState (initialized s) n (localStorage s))
  | localStorage_getItem k => (localStorage s !! k, s)
  end.

Definition Env : Type := forall X : Type, Ext X -> list Obs -> Settled X.

Section Running.

Variable env : Env.
Variable history : list Obs.

(** [run p s seen]: the call [p] run until its promise settles. *)
Fixpoint run {A : Type} (p : Prog A) (s : State) (seen : list Obs)
  : Settled A * State * list Obs :=
  match p with
  | Ret a => (Fulfilled a, s, seen)
  | Throw e => (Rejected e, s, seen)
  | Do o k => let '(x, s') := perform o s in run (k x) s' seen
  | Await e k =>
      let seen1 := seen ++ [ObsCall e] in
      let a := env e (history ++ seen1) in
      let seen2 := seen1 ++ [ObsSettle e a] in
      match a with
      | Fulfilled x => run (k x) s seen2
      | Rejected err => (Rejected err, s, seen2)
      end
  end.

Definition exec {A : Type} (p : Prog A) (s : State)
  : Settled A * State * list Obs :=
  run p s [].

End Running.

(** [x != null] *)
Definition not_null {A : Type} (x : option A) : bool :=
  match x with
  | Some _ => true
  | None => false
  end.

Section Store.

(** [DisplayNames.Anonymous], and [route] of [$lib]. *)
Variable Anonymous : Z.
Variable route : string -> string.

Definition initialState : Name :=
  {| n_id := "";
     n_firstName := "";
     n_lastName := "";
     n_username := "";
     n_displayName := Anonymous;
     n_visibility := mkVisibility Encrypted Encrypted;
     n_privateDisplayName := None;
     n_cryptoKey := None;
     n_checksum := "" |}.

(** The end of [init]: the document is decrypted, stored and cached. *)
Definition init_decrypt (userID : string) (document : NameDocument)
  : Prog unit :=
  let visibility := doc_visibility document in
  let decryptFirstName := is_encrypted (vis_firstName visibility) in
  let decryptLastName := is_encrypted (vis_lastName visibility) in
  let hasEncryptedFields :=
    decryptFirstName || decryptLastName ||
    not_null (doc_privateDisplayName document) in
  let* cryptoKey :=
    if hasEncryptedFields && is_defined (meta_cryptoKey document) then
      let* keys := await (mustGetByKey "keys" userID) in
      let* key := await (rsa_unwrapKey (value_of (meta_cryptoKey document))
                           (kr_privateKey keys) "AES-GCM") in
      Ret (Some key)
    else Ret None in
  let* firstName :=
    if decryptFirstName
    then await (aes_decrypt (doc_firstName document) cryptoKey)
    else Ret (doc_firstName document) in
  let* lastName :=
    if decryptLastName
    then await (aes_decrypt (doc_lastName document) cryptoKey)
    else Ret (doc_lastName document) in
  let* namePreference :=
    match doc_privateDisplayName document with
    | Some cipher =>
        let* plain := await (aes_decrypt cipher cryptoKey) in
        Ret (Some (parseInt plain))
    | None => Ret None
    end in
  let final :=
    {| n_id := userID;
       n_firstName := firstName;
       n_lastName := lastName;
       n_username := doc_username document;
       n_displayName := doc_displayName document;
       n_visibility := visibility;
       n_privateDisplayName := namePreference;
       n_cryptoKey := cryptoKey;
       n_checksum := meta_checksum document |} in
  let* _ := perform_ (store_set final) in
  let* _ := await (updateWithKey "user-name" final) in
  perform_ (set_initialized true).

(** [init] *)
Definition init : Prog unit :=
  let* initialized := perform_ get_initialized in
  if initialized : bool then Ret tt
  else
    let* userID := await getUserID in
    let* token := perform_ (localStorage_getItem "CSRF-Token") in
    let* res := await (fetch (route "/name")
      {| nr_method := HttpGET;
         nr_headers := [("CSRF-Token", token)];
         nr_body := None |}) in
    if Z.eqb (status res) 204 then
      perform_ (set_initialized true)
    else if negb (Z.eqb (status res) 200) then
      let* msg := await (HTTPerror res "failed to retrieve name from server") in
      Throw (Error msg)
    else
      let* document := await (res_json_NameDocument res) in
      let* cached := await (getByKey "user-name" userID) in
      match cached with
      | Some name =>
          if String.eqb (n_checksum name) (meta_checksum document)
          then perform_ (store_set name)
          else init_decrypt userID document
      | None => init_decrypt userID document
      end.

(** [create]; its argument is an object by its type. *)
Definition create (name : NameData) : Prog unit :=
  let* userID := await getUserID in
  let visibility := d_visibility name in
  let encryptFirstName := is_encrypted (vis_firstName visibility) in
  let encryptLastName := is_encrypted (vis_lastName visibility) in
  let hasEncryptedFields :=
    encryptFirstName || encryptLastName ||
    not_null (d_privateDisplayName name) in
  let* cryptoKey :=
    if hasEncryptedFields
    then let* key := await (aes_generateKey "AES-GCM") in Ret (Some key)
    else Ret None in
  let* firstName :=
    if encryptFirstName
    then await (aes_encrypt (d_firstName name) cryptoKey)
    else Ret (d_firstName name) in
  let* lastName :=
    if encryptLastName
    then await (aes_encrypt (d_lastName name) cryptoKey)
    else Ret (d_lastName name) in
  let* namePreference :=
    match d_privateDisplayName name with
    | Some preference =>
        let* cipher := await (aes_encrypt (toString preference) cryptoKey) in
        Ret (Some cipher)
    | None => Ret None
    end in
  let* encryptedKey :=
    match cryptoKey with
    | Some key =>
        let* keys := await (mustGetByKey "keys" userID) in
        let* wrapped := await (rsa_wrapKey key (kr_publicKey keys)) in
        Ret (Some wrapped)
    | None => Ret None
    end in
  let document :=
    {| up_firstName := firstName;
       up_lastName := lastName;
       up_username := d_username name;
       up_privateDisplayName := namePreference;
       up_displayName := d_displayName name;
       up_visibility := visibility;
       up_cryptoKey := encryptedKey |} in
  let* token := perform_ (localStorage_getItem "CSRF-Token") in
  let* res := await (fetch (route "/name")
    {| nr_method := HttpPATCH;
       nr_headers := [("CSRF-Token", token);
                      ("Content-Type", Some "application/json")];
       nr_body := Some document |}) in
  if negb (Z.eqb (status res) 200) then
    let* msg := await (HTTPerror res "failed to submit name to server") in
    Throw (Error msg)
  else
    let* meta := await (res_json_MetaResponse res) in
    let final :=
      {| n_id := userID;
         n_firstName := d_firstName name;
         n_lastName := d_lastName name;
         n_username := d_username name;
         n_displayName := d_displayName name;
         n_visibility := d_visibility name;
         n_privateDisplayName := option_map Int (d_privateDisplayName name);
         n_cryptoKey := cryptoKey;
         n_checksum := mr_checksum meta |} in
    let* _ := perform_ (store_set final) in
    let* _ := await (addToStore "user-name" final) in
    perform_ (set_initialized true).

(** [delete] *)
Definition delete : Prog unit :=
  let* token := perform_ (localStorage_getItem "CSRF-Token") in
  let* res := await (fetch (route "/name")
    {| nr_method := HttpDELETE;
       nr_headers := [("CSRF-Token", token)];
       nr_body := None |}) in
  if negb (Z.eqb (status res) 204) then
    let* msg := await (HTTPerror res "failed to delete name from server") in
    Throw (Error msg)
  else Ret tt.

End Store.

(** *** Views of what the store has asked for *)

(** The identities [getUserID] has returned. *)
Definition user_ids (os : list Obs) : list string :=
  flat_map (fun o =>
    match o with
    | @ObsSettle X e a =>
        match e in Ext T return Settled T -> list string with
        | getUserID =>
            fun a => match a with
                     | Fulfilled uid => [uid]
                     | Rejected _ => []
                     end
        | _ => fun _ => []
        end a
    | _ => []
    end) os.

Definition requests (os : list Obs) : list (string * NameRequest) :=
  flat_map (fun o => match o with
                     | ObsCall (fetch url init) => [(url, init)]
                     | _ => []
                     end) os.

Definition responses (os : list Obs) : list Response :=
  flat_map (fun o =>
    match o with
    | @ObsSettle X e a =>
        match e in Ext T return Settled T -> list Response with
        | fetch _ _ =>
            fun a => match a with
                     | Fulfilled res => [res]
                     | Rejected _ => []
                     end
        | _ => fun _ => []
        end a
    | _ => []
    end) os.

(** The messages [HTTPerror] has made. *)
Definition error_messages (os : list Obs) : list string :=
  flat_map (fun o =>
    match o with
    | @ObsSettle X e a =>
        match e in Ext T return Settled T -> list string with
        | HTTPerror _ _ =>
            fun a => match a with
                     | Fulfilled msg => [msg]
                     | Rejected _ => []
                     end
        | _ => fun _ => []
        end a
    | _ => []
    end) os.

(** The documents read from responses. *)
Definition documents (os : list Obs) : list NameDocument :=
  flat_map (fun o =>
    match o with
    | @ObsSettle X e a =>
        match e in Ext T return Settled T -> list NameDocument with
        | res_json_NameDocument _ =>
            fun a => match a with
                     | Fulfilled doc => [doc]
                     | Rejected _ => []
                     end
        | _ => fun _ => []
        end a
    | _ => []
    end) os.

(** The checksums the server has returned for uploads. *)
Definition metas (os : list Obs) : list MetaResponse :=
  flat_map (fun o =>
    match o with
    | @ObsSettle X e a =>
        match e in Ext T return Settled T -> list MetaResponse with
        | res_json_MetaResponse _ =>
            fun a => match a with
                     | Fulfilled m => [m]
                     | Rejected _ => []
                     end
        | _ => fun _ => []
        end a
    | _ => []
    end) os.

(** What the cache has returned. *)
Definition cache_reads (os : list Obs) : list (option Name) :=
  flat_map (fun o =>
    match o with
    | @ObsSettle X e a =>
        match e in Ext T return Settled T -> list (option Name) with
        | getByKey _ _ =>
            fun a => match a with
                     | Fulfilled c => [c]
                     | Rejected _ => []
                     end
        | _ => fun _ => []
        end a
    | _ => []
    end) os.

(** The names handed to IndexedDB, by [updateWithKey] or [addToStore]. *)
Definition cache_writes (os : list Obs) : list (string * Name) :=
  flat_map (fun o => match o with
                     | ObsCall (updateWithKey store n) => [(store, n)]
                     | ObsCall (addToStore store n) => [(store, n)]
                     | _ => []
                     end) os.

(** The reads of the master key pair. *)
Definition key_reads (os : list Obs) : list (string * string) :=
  flat_map (fun o => match o with
                     | ObsCall (mustGetByKey store key) => [(store, key)]
                     | _ => []
                     end) os.

(** The master key pairs read. *)
Definition key_pairs (os : list Obs) : list KeyRecord :=
  flat_map (fun o =>
    match o with
    | @ObsSettle X e a =>
        match e in Ext T return Settled T -> list KeyRecord with
        | mustGetByKey _ _ =>
            fun a => match a with
                     | Fulfilled k => [k]
                     | Rejected _ => []
                     end
        | _ => fun _ => []
        end a
    | _ => []
    end) os.

(** The decryptions asked for: the ciphertext and the key. *)
Definition decrypt_calls (os : list Obs) : list (string * option CryptoKey) :=
  flat_map (fun o => match o with
                     | ObsCall (aes_decrypt c k) => [(c, k)]
                     | _ => []
                     end) os.

(** The decryptions done: the ciphertext, the key, the plaintext. *)
Definition decrypted (os : list Obs)
  : list (string * option CryptoKey * string) :=
  flat_map (fun o =>
    match o with
    | @ObsSettle X e a =>
        match e in Ext T return Settled T -> list _ with
        | aes_decrypt c k =>
            fun a => match a with
                     | Fulfilled p => [(c, k, p)]
                     | Rejected _ => []
                     end
        | _ => fun _ => []
        end a
    | _ => []
    end) os.

(** The encryptions done: the plaintext, the key, the ciphertext. *)
Definition encrypted (os : list Obs)
  : list (string * option CryptoKey * string) :=
  flat_map (fun o =>
    match o with
    | @ObsSettle X e a =>
        match e in Ext T return Settled T -> list _ with
        | aes_encrypt p k =>
            fun a => match a with
                     | Fulfilled c => [(p, k, c)]
                     | Rejected _ => []
                     end
        | _ => fun _ => []
        end a
    | _ => []
    end) os.

(** The keys generated. *)
Definition generated_keys (os : list Obs) : list CryptoKey :=
  flat_map (fun o =>
    match o with
    | @ObsSettle X e a =>
        match e in Ext T return Settled T -> list CryptoKey with
        | aes_generateKey _ =>
            fun a => match a with
                     | Fulfilled k => [k]
                     | Rejected _ => []
                     end
        | _ => fun _ => []
        end a
    | _ => []
    end) os.

(** The calls of [aes.generateKey]. *)
Definition generate_calls (os : list Obs) : list string :=
  flat_map (fun o => match o with
                     | ObsCall (aes_generateKey alg) => [alg]
                     | _ => []
                     end) os.

(** The calls of [aes.encrypt]: the plaintext and the key. *)
Definition encrypt_calls (os : list Obs) : list (string * option CryptoKey) :=
  flat_map (fun o => match o with
                     | ObsCall (aes_encrypt p k) => [(p, k)]
                     | _ => []
                     end) os.

(** What [HTTPerror] has rejected with, where it could make no
    message. *)
Definition failed_messages (os : list Obs) : list JsError :=
  flat_map (fun o =>
    match o with
    | @ObsSettle X e a =>
        match e in Ext T return Settled T -> list JsError with
        | HTTPerror _ _ =>
            fun a => match a with
                     | Fulfilled _ => []
                     | Rejected err => [err]
                     end
        | _ => fun _ => []
        end a
    | _ => []
    end) os.

(** The keys wrapped: the key, the public key, the result. *)
Definition wrapped_keys (os : list Obs)
  : list (CryptoKey * CryptoKey * string) :=
  flat_map (fun o =>
    match o with
    | @ObsSettle X e a =>
        match e in Ext T return Settled T -> list _ with
        | rsa_wrapKey k pub =>
            fun a => match a with
                     | Fulfilled w => [(k, pub, w)]
                     | Rejected _ => []
                     end
        | _ => fun _ => []
        end a
    | _ => []
    end) os.

(** The calls of [rsa.unwrapKey]: the wrapped key, [null] included,
    and the private key. *)
Definition unwrap_calls (os : list Obs) : list (option string * CryptoKey) :=
  flat_map (fun o => match o with
                     | ObsCall (rsa_unwrapKey w priv _) => [(w, priv)]
                     | _ => []
                     end) os.

(** The keys unwrapped: the wrapped key, the private key, the result. *)
Definition unwrapped_keys (os : list Obs)
  : list (option string * CryptoKey * CryptoKey) :=
  flat_map (fun o =>
    match o with
    | @ObsSettle X e a =>
        match e in Ext T return Settled T -> list _ with
        | rsa_unwrapKey w priv _ =>
            fun a => match a with
                     | Fulfilled k => [(w, priv, k)]
                     | Rejected _ => []
                     end
        | _ => fun _ => []
        end a
    | _ => []
    end) os.

(** The documents uploaded. *)
Definition uploads (os : list Obs) : list NameUpload :=
  flat_map (fun q : string * NameRequest =>
              match nr_body (snd q) with
              | Some d => [d]
              | None => []
              end) (requests os).

(** The fields of a document that are encrypted. *)
Definition encrypted_fields (v : NameVisibility) (private : bool) : nat :=
  (if is_encrypted (vis_firstName v) then 1 else 0) +
  (if is_encrypted (vis_lastName v) then 1 else 0) +
  (if private then 1 else 0).

End UserName.

(** *** Sample surroundings of the store *)

Module NameScenes.

Import Storage UserName.

(** What the surroundings answer: the status of the server, the document
    it holds, and the name the cache holds. *)
Record Script : Type := mkScript {
  sc_status : Z;
  sc_document : NameDocument;
  sc_cached : option Name
}.

(** A cipher that writes [enc:] before the plaintext. *)
Definition seal (plain : string) : string := String.append "enc:" plain.

Definition unseal (cipher : string) : string :=
  substring 4 (String.length cipher - 4) cipher.

Definition scripted (sc : Script) : Env :=
  fun X e _ =>
    match e in Ext T return Settled T with
    | getUserID => Fulfilled "user-1"
    | fetch _ _ => Fulfilled (mkResponse (sc_status sc))
    | res_json_NameDocument _ => Fulfilled (sc_document sc)
    | res_json_MetaResponse _ => Fulfilled (mkMetaResponse "sum-2")
    | HTTPerror _ msg => Fulfilled msg
    | getByKey _ _ => Fulfilled (sc_cached sc)
    | mustGetByKey _ key =>
        Fulfilled (mkKeyRecord key (mkCryptoKey 1) (mkCryptoKey 2))
    | updateWithKey _ _ => Fulfilled tt
    | addToStore _ _ => Fulfilled tt
    | rsa_unwrapKey _ _ _ => Fulfilled (mkCryptoKey 7)
    | rsa_wrapKey _ _ => Fulfilled "wrapped-key"
    | aes_generateKey _ => Fulfilled (mkCryptoKey 7)
    | aes_encrypt plain _ => Fulfilled (seal plain)
    | aes_decrypt cipher _ => Fulfilled (unseal cipher)
    end.

Definition a_visibility : NameVisibility :=
  mkVisibility Encrypted (Unencrypted 0).

(** A name with an encrypted first name and a private display name. *)
Definition ada_data : NameData :=
  mkNameData "Ada" "Lovelace" "ada" 1 a_visibility (Some 2).

Definition ada_document : NameDocument :=
  mkNameDocument (seal "Ada") "Lovelace" "ada" (Some (seal "2")) 1
    a_visibility (Given "wrapped-key") "sum-1".

Definition ada : Name :=
  mkName "user-1" "Ada" "Lovelace" "ada" 1 a_visibility (Some (Int 2))
    (Some (mkCryptoKey 7)) "sum-1".

Definition a_route (path : string) : string :=
  String.append "https://api.csplan.co" path.

(** The store as [create()] makes it, in a session with a token. *)
Definition fresh : State :=
  mkState false (initialState 0) (<["CSRF-Token" := "token-1"]> ∅).

Definition served : Script := mkScript 200 ada_document None.
Definition cache_hit : Script := mkScript 200 ada_document (Some ada).
Definition no_name : Script := mkScript 204 ada_document None.
Definition broken : Script := mkScript 500 ada_document None.

(** The same document with [null] for its wrapped key. *)
Definition null_key_document : NameDocument :=
  mkNameDocument (seal "Ada") "Lovelace" "ada" (Some (seal "2")) 1
    a_visibility Null "sum-1".

Definition null_key : Script := mkScript 200 null_key_document None.

Abbreviation outcome x := (fst (fst x)).
Abbreviation state_after x := (snd (fst x)).
Abbreviation trace x := (snd x).

Abbreviation visit sc := (exec (scripted sc) [] (init a_route) fresh).
Abbreviation saving sc :=
  (exec (scripted sc) [] (create a_route ada_data) fresh).
Abbreviation deleting sc := (exec (scripted sc) [] (delete a_route) fresh).

End NameScenes.

(** ** The IndexedDB handle ([getDB], [clearStore]) *)

Module Idb.

Definition DB_NAME : string := "CSplan".
Definition DB_VER : Z := 1.

Record IDBDatabase : Type := mkDatabase { db_handle : Z }.

(** What a promise is rejected with: the [TypeError] of a property read
    on [undefined], or the [DOMException] IndexedDB reports. *)
Inductive Failure : Type :=
| TypeError
| DOMException (name : string).

(** A promise settles once: [resolve] and [reject] do nothing to a
    promise that is settled. *)
Inductive Promise (A : Type) : Type :=
| Pending
| Resolved (a : A)
| Failed (e : Failure).
Arguments Pending {A}.
Arguments Failed {A} e.

Definition resolve {A : Type} (p : Promise A) (a : A) : Promise A :=
  match p with
  | Pending => Resolved a
  | _ => p
  end.

Definition reject {A : Type} (p : Promise A) (e : Failure) : Promise A :=
  match p with
  | Pending => Failed e
  | _ => p
  end.

(** What has been asked of IndexedDB. *)
Inductive Request : Type :=
| Open (name : string) (version : Z)
| CreateObjectStore (d : IDBDatabase) (name keyPath : string)
| Transaction (d : IDBDatabase) (storeName mode : string)
| Clear (d : IDBDatabase) (storeName : string).

(** The module's state: the variable [db], [undefined] at first, and
    the requests made. *)
Record Page : Type := mkPage {
  db : option IDBDatabase;
  asked : list Request
}.

(** The events of the open request, each with [req.result] or
    [req.error] as it is when the listener runs; [store_fails] tells
    that [createObjectStore] throws in the listener. *)
Inductive OpenEvent : Type :=
| upgradeneeded (result : IDBDatabase) (store_fails : bool)
| open_error (error : Failure)
| open_success (result : IDBDatabase).

(** The executor of [getDB]'s promise: there is no [return] after
    [resolve(db)]. *)
Definition getDB_executor (g : Page) : Promise IDBDatabase * Page :=
  let p := match db g with
           | Some d => resolve Pending d
           | None => Pending
           end in
  (p, mkPage (db g) (asked g ++ [Open DB_NAME DB_VER])).

(** The three listeners. *)
Definition on_open_event (st : Promise IDBDatabase * Page) (ev : OpenEvent)
  : Promise IDBDatabase * Page :=
  let '(p, g) := st in
  match ev with
  | upgradeneeded result store_fails =>
      let g' := mkPage (Some result)
                  (asked g ++ [CreateObjectStore result "keys" "id"]) in
      if store_fails then (p, g') else (resolve p result, g')
  | open_error error => (reject p error, g)
  | open_success result => (resolve p result, mkPage (Some result) (asked g))
  end.

(** [getDB()], and the events of its request delivered in order. *)
Definition getDB (g : Page) (events : list OpenEvent)
  : Promise IDBDatabase * Page :=
  fold_left on_open_event events (getDB_executor g).

Inductive ClearEvent : Type :=
| clear_error (error : Failure)
| clear_success.

Section Clearing.

(** Whether [db.transaction(..).objectStore(..)] or [store.clear()]
    throws. *)
Variable transaction_throws : IDBDatabase -> string -> option Failure.

(** The executor of [clearStore]'s promise; what it throws rejects the
    promise. *)
Definition clearStore_executor (g : Page) (storeName : string)
  : Promise unit * Page :=
  match db g with
  | None => (Failed TypeError, g)
  | Some d =>
      match transaction_throws d storeName with
      | Some e =>
          (Failed e,
           mkPage (db g) (asked g ++ [Transaction d storeName "readwrite"]))
      | None =>
          (Pending,
           mkPage (db g) (asked g ++ [Transaction d storeName "readwrite";
                                      Clear d storeName]))
      end
  end.

Definition on_clear_event (st : Promise unit * Page) (ev : ClearEvent)
  : Promise unit * Page :=
  let '(p, g) := st in
  match ev with
  | clear_error error => (reject p error, g)
  | clear_success => (resolve p tt, g)
  end.

Definition clearStore (g : Page) (storeName : string)
    (events : list ClearEvent) : Promise unit * Page :=
  match clearStore_executor g storeName with
  | (Pending, g') => fold_left on_clear_event events (Pending, g')
  | settled => settled
  end.

End Clearing.

(** The module as it is loaded. *)
Definition loaded : Page := mkPage None [].

(** The database the events of an open request leave in [db], when it
    held [d] before: the result of the last upgrade or success. *)
Definition database_after (events : list OpenEvent)
    (d : option IDBDatabase) : option IDBDatabase :=
  fold_left (fun d ev => match ev with
                         | upgradeneeded result _ => Some result
                         | open_error _ => d
                         | open_success result => Some result
                         end) events d.

(** [getDB] called again and again, each call with the events of its
    request; the page after the last of them. *)
Definition after_calls (g : Page) (calls : list (list OpenEvent)) : Page :=
  fold_left (fun g events => snd (getDB g events)) calls g.

(** The requests that open a database. *)
Definition opens (g : Page) : list (string * Z) :=
  flat_map (fun r => match r with
                     | Open name version => [(name, version)]
                     | _ => []
                     end) (asked g).

End Idb.

(** *** Sample pages *)

Module IdbScenes.

Import Idb.

Definition first_database : IDBDatabase := mkDatabase 1.
Definition second_database : IDBDatabase := mkDatabase 2.

(** The module after a first [getDB] whose request succeeded. *)
Definition opened_once : Page :=
  snd (getDB loaded [upgradeneeded first_database false;
                     open_success first_database]).

Definition no_throw (d : IDBDatabase) (storeName : string)
  : option Failure := None.

End IdbScenes.

(** ** Lightness of a colour ([parseLightness]) *)

Module Lightness.

(** Numbers are doubles: the kernel's binary64 floats. *)
Definition is_positive_zero (x : float) : bool :=
  match PrimFloat.classify x with
  | PZero => true
  | _ => false
  end.

Definition is_negative_zero (x : float) : bool :=
  match PrimFloat.classify x with
  | NZero => true
  | _ => false
  end.

(** One step of [Math.max]: [+0] is above [-0]. *)
Definition max_step (highest number : float) : float :=
  if is_positive_zero number && is_negative_zero highest then number
  else if PrimFloat.ltb highest number then number
  else highest.

Definition min_step (lowest number : float) : float :=
  if is_negative_zero number && is_positive_zero lowest then number
  else if PrimFloat.ltb number lowest then number
  else lowest.

(** [Math.max] and [Math.min]: [NaN] when an argument is [NaN]. *)
Definition Math_max (values : list float) : float :=
  if existsb PrimFloat.is_nan values then PrimFloat.nan
  else fold_left max_step values PrimFloat.neg_infinity.

Definition Math_min (values : list float) : float :=
  if existsb PrimFloat.is_nan values then PrimFloat.nan
  else fold_left min_step values PrimFloat.infinity.

(** The double of a small natural number. *)
Definition number (n : Z) : float := PrimFloat.of_uint63 (Uint63.of_Z n).

(** [rgb[i]]: [undefined], a [NaN] as a number, past the end. *)
Definition item (rgb : list float) (i : nat) : float :=
  nth i rgb PrimFloat.nan.

Definition parseLightness (rgb : list float) : float :=
  let r := item rgb 0 in
  let g := item rgb 1 in
  let b := item rgb 2 in
  PrimFloat.div
    (PrimFloat.add (Math_max [r; g; b]) (Math_min [r; g; b]))
    (number 510).

(** A colour of three channels, each one of 0 .. 255. *)
Definition colour (r g b : Z) : list float := [number r; number g; number b].

Definition channel (n : Z) : Prop := 0 <= n <= 255.

(** The sum the lightness is made of. *)
Definition extremes (r g b : Z) : Z :=
  Z.max (Z.max r g) b + Z.min (Z.min r g) b.

(** Checks by enumeration. *)
Definition upto (n : nat) : list Z := map Z.of_nat (seq 0 n).

Definition same (x y : float) : bool := PrimFloat.Leibniz.eqb x y.

Definition lightness_of_sum (m : Z) : float :=
  PrimFloat.div (number m) (number 510).

End Lightness.

(** ** Symbolic execution *)

(** One step of a run whose outcome is named by hypothesis [H]: case
    analysis on how the awaited promise settles, or on the test the code
    branches on. *)
Ltac run_step H :=
  match type of H with
  | context [match ?a with Fulfilled _ => _ | Rejected _ => _ end] =>
      destruct a
  | context [if ?b then _ else _] =>
      let E := fresh "Htest" in destruct b eqn:E
  | context [match ?o with Some _ => _ | None => _ end] =>
      let E := fresh "Hopt" in destruct o eqn:E
  end; cbn in H.

Ltac run_all H := cbn in H; repeat run_step H.

Ltac finish H := inversion H; subst; clear H; cbn.

Ltac tests :=
  repeat match goal with
         | H : negb _ = true |- _ => apply negb_true_iff in H
         | H : negb _ = false |- _ => apply negb_false_iff in H
         | H : Z.eqb _ _ = true |- _ => apply Z.eqb_eq in H
         | H : Z.eqb _ _ = false |- _ => apply Z.eqb_neq in H
         end.

Lemma append_inj (p a b : string) :
  String.append p a = String.append p b -> a = b.
Proof.
  induction p as [ | c p IH]; cbn; intros H; [exact H | ].
  injection H as H. exact (IH H).
Qed.

Lemma route_inj (development : bool) (a b : string) :
  route development a = route development b -> a = b.
Proof. unfold route. destruct development; apply append_inj. Qed.

(** What is left once a run has been unfolded: facts about short,
    explicit lists of observations. *)
Ltac settle :=
  repeat (intros; subst;
          match goal with
          | H : False |- _ => destruct H
          | H : _ \/ _ |- _ => destruct H
          | H : _ /\ _ |- _ => destruct H
          | H : (_, _) = (_, _) |- _ => inversion H; clear H
          | H : Some _ = Some _ |- _ => inversion H; clear H
          | H : _ :: _ = [] |- _ => discriminate H
          | H : [] = _ :: _ |- _ => discriminate H
          | H : Fulfilled _ = Rejected _ |- _ => discriminate H
          | H : Rejected _ = Fulfilled _ |- _ => discriminate H
          | H : route _ _ = route _ _ |- _ =>
              apply route_inj in H; cbn in H; try discriminate H
          | |- _ /\ _ => split
          end);
  intros; subst; try congruence; try lia; auto.

(** The outcome a hypothesis names, put to use. *)
Ltac outcomes :=
  repeat match goal with
         | H : Rejected _ = Rejected _ |- _ => injection H as H; subst
         | H : Fulfilled _ = Fulfilled _ |- _ => injection H as H; subst
         | H : Fulfilled _ = Rejected _ |- _ => discriminate H
         | H : Rejected _ = Fulfilled _ |- _ => discriminate H
         end.

(** A goal made of choices and witnesses, over explicit lists. *)
Ltac pick :=
  lazymatch goal with
  | |- exists _, _ => eexists; pick
  | |- _ /\ _ => split; pick
  | |- _ \/ _ => (left; pick) + (right; pick)
  | |- False => fail
  | |- _ => first [reflexivity | assumption | discriminate | congruence | lia]
  end.

(** ** The authenticator *)

Section Authenticator.

Variable development : bool.
Variable encode : bytes -> string.
Variable decode : string -> bytes.
Variable env : Env.
Variable history : list Obs.

Abbreviation authenticate := (authenticate development encode decode).

(** C1.  When the server answers the submitted solution with 401,
    [authenticate] rejects with the incorrect-password error, and reads
    no error body.  When it answers with any other status than 200,
    [authenticate] rejects too: it asks for the error body, and rejects
    with the server's message, or with the fallback text, when the body
    is read, and with the error of [res.json()] when it is not.
    Whenever [authenticate] does not return [Success], neither the
    session token nor the user identity has been written.  [Success] is
    returned only after a solution was answered with 200; every
    decrypted challenge is submitted; and every rejection has its cause:
    a promise that rejected, a worker that failed, an error body of the
    server, or a 401 on the solution. *)
Theorem authenticate_submit_failure (w : World) (user : AuthUser)
    (reuse : bool) (o : Settled AuthConditions) (r : Run) :
  exec env history (authenticate user reuse) w = (o, r) ->
  (forall id init res,
     In (route development (challenge_submit_path id), init, res)
        (responses (seen r)) ->
     (status res = 401 ->
      o = Rejected
            (Error "Authentication failure, password is incorrect.") /\
      error_bodies (seen r) = []) /\
     (status res <> 401 -> status res <> 200 ->
      (exists e, o = Rejected e) /\
      ((exists err, error_bodies (seen r) = [(res, err)]) \/
       (exists e, unread_errors (seen r) = [(res, e)])) /\
      (forall err, In (res, err) (error_bodies (seen r)) ->
       o = Rejected
             (Error (or_else (message err) "Error submitting challenge."))) /\
      (forall e, In (res, e) (unread_errors (seen r)) -> o = Rejected e))) /\
  (o <> Fulfilled Success ->
   session_writes (seen r) = [] /\
   localStorage (world r) = localStorage w /\
   userStore (world r) = userStore w) /\
  (o = Fulfilled Success ->
   exists id init res,
     In (route development (challenge_submit_path id), init, res)
        (responses (seen r)) /\
     status res = 200) /\
  (forall alg key data plain,
     In (alg, key, data, plain) (decrypt_results (seen r)) ->
     exists id init,
       In (route development (challenge_submit_path id), init)
          (requests (seen r)) /\
       method init = POST /\
       req_body init = Some (JSON_SolvedChallenge (mkSolved (encode plain)))) /\
  (forall e, o = Rejected e ->
     In e (rejections (seen r)) \/
     (e = Error "Error running argon2." /\
      exists m, In m (digests (seen r)) /\ code m <> ARGON2_OK) \/
     (exists res err,
        In (res, err) (error_bodies (seen r)) /\
        (e = Error (or_else (message err)
                      "Unknown error requesting an auth challenge") \/
         e = Error (or_else (message err) "Error submitting challenge."))) \/
     (e = Error "Authentication failure, password is incorrect." /\
      exists id init res,
        In (route development (challenge_submit_path id), init, res)
           (responses (seen r)) /\
        status res = 401)).
Proof.
  intros H. unfold exec, authenticate, hashPassword in H.
  run_all H; finish H; tests; settle.
  all: outcomes; solve [pick].
Qed.

(** C5.  [authenticate] begins by sending the challenge request, with
    the email and the one-time code it was given.  When the server
    answers it with 412, [authenticate] returns [TOTPRequired]: a value,
    not a rejection; nothing else has been asked of the server; and
    [TOTPRequired] is returned in no other case.  When the server
    answers with any other status than 201, [authenticate] rejects,
    having sent nothing more, hashed nothing and changed nothing: with
    the server's message, or with the fallback text, when the error body
    is read, and with the error of [res.json()] when it is not. *)
Theorem authenticate_challenge_status (w : World) (user : AuthUser)
    (reuse : bool) (o : Settled AuthConditions) (r : Run) :
  exec env history (authenticate user reuse) w = (o, r) ->
  (exists rest,
     requests (seen r) =
       (route development challenge_request_path,
        {| method := POST;
           headers := json_headers;
           credentials := None;
           req_body := Some (JSON_ChallengeRequest
                               (mkChallengeRequest (email user)
                                                   (totp user))) |})
       :: rest) /\
  (o = Fulfilled TOTPRequired ->
   exists init res,
     In (route development challenge_request_path, init, res)
        (responses (seen r)) /\
     status res = 412) /\
  (forall init res,
    In (route development challenge_request_path, init, res)
       (responses (seen r)) ->
    (status res = 412 ->
     o = Fulfilled TOTPRequired /\
     length (requests (seen r)) = 1%nat /\
     unhandled (seen r) = []) /\
    (status res <> 412 -> status res <> 201 ->
     (exists e, o = Rejected e) /\
     length (requests (seen r)) = 1%nat /\
     posts (seen r) = [] /\
     world r = w /\
     ((exists err, error_bodies (seen r) = [(res, err)]) \/
      (exists e, unread_errors (seen r) = [(res, e)])) /\
     (forall err, In (res, err) (error_bodies (seen r)) ->
      o = Rejected
            (Error (or_else (message err)
                      "Unknown error requesting an auth challenge"))) /\
     (forall e, In (res, e) (unread_errors (seen r)) -> o = Rejected e))).
Proof.
  intros H. unfold exec, authenticate, hashPassword in H.
  destruct w as [hp km ls us].
  run_all H; finish H; tests; settle.
  all: outcomes; solve [pick].
Qed.


(** C4.  Every decryption [authenticate] asks for is of a received
    challenge [c]: with AES-CTR, the first 16 bytes of the decoded
    [c.data] as the counter and the bytes after them as the data, the
    two together being the decoded [c.data]; the counter has 16 bytes
    as soon as the decoded data has that many (and all of them when it
    has fewer).  The key is the one
    imported, for decryption only, from the object's authentication key
    material, and every key imported is used for one decryption. *)
Theorem authenticate_decrypts_challenge (w : World) (user : AuthUser)
    (reuse : bool) (o : Settled AuthConditions) (r : Run) :
  exec env history (authenticate user reuse) w = (o, r) ->
  (forall alg key data, In (alg, key, data) (decryptions (seen r)) ->
     exists c, challenges (seen r) = [c] /\
       alg = {| alg_name := "AES-CTR";
                counter := firstn 16 (decode (ch_data c));
                ctr_length := 64 |} /\
       data = skipn 16 (decode (ch_data c)) /\
       counter alg ++ data = decode (ch_data c) /\
       length (counter alg) = Nat.min (length (decode (ch_data c))) 16 /\
       (16 <= length (decode (ch_data c)) ->
        length (counter alg) = 16)%nat /\
       import_results (seen r) =
         [("raw", authKeyMaterial (world r), "AES-CTR", false,
           ["decrypt"], key)]) /\
  length (decryptions (seen r)) = length (import_results (seen r)).
Proof.
  intros H. unfold exec, authenticate, hashPassword in H.
  run_all H; finish H; tests; settle.
  all: eexists; split; [reflexivity | ].
  all: repeat split; cbn; auto using firstn_skipn.
  all: intros; rewrite ?skipn_O, length_firstn; lia.
Qed.

(** C10.  With key reuse, the key material [authenticate] hands to
    [crypto.subtle.importKey] is the stored one, as it stands: when
    material [m] is stored, every import is of [m]; when none is stored
    and a challenge is received, the import is reached and is given
    [null]. *)
Theorem authenticate_reuse_imports_stored_material (w : World)
    (user : AuthUser) (o : Settled AuthConditions) (r : Run) :
  exec env history (authenticate user true) w = (o, r) ->
  (forall m, authKeyMaterial w = Some m ->
     Forall (fun k => k = Some m) (imported (seen r))) /\
  (authKeyMaterial w = None -> challenges (seen r) <> [] ->
     imported (seen r) = [None]).
Proof.
  intros H. unfold exec, authenticate, hashPassword in H.
  run_all H; finish H; tests; settle.
  all: repeat constructor; auto.
Qed.

End Authenticator.

(** ** Registration *)

Section Registration.

Variable development : bool.
Variable encode : bytes -> string.
Variable decode : string -> bytes.
Variable env : Env.
Variable history : list Obs.

Abbreviation authenticate := (authenticate development encode decode).
Abbreviation register := (register development encode decode).
Abbreviation route := (route development).
Abbreviation next_turn := (next_turn env history).



End Registration.

(** ** Custody of the master key pair *)

Section Custody.

Variable development : bool.
Variable encode : bytes -> string.
Variable decode : string -> bytes.
Variable env : Env.

Abbreviation register := (register development encode decode).
Abbreviation generateMasterKeypair :=
  (generateMasterKeypair development encode).
Abbreviation retrieveMasterKeypair :=
  (retrieveMasterKeypair development decode).

(** C3.  All [generateMasterKeypair] sends to the server is one POST to
    [/keys] whose body holds the exported public key, the output of
    [rsa.wrapPrivateKey] on the generated private key, the encoded salt
    it was given and the object's hash parameters.  All
    [retrieveMasterKeypair] sends is one GET to [/keys], without a
    body.  Both hand the usable key pair to IndexedDB only, in the
    store ['keys'], under the identity of the user store: the generated
    pair once the server has accepted the upload, the unwrapped private
    key once it is unwrapped; and both do so whenever they fulfil. *)
Theorem private_key_stays_local (history : list Obs) (w : World) :
  (forall password salt keysize o r,
     exec env history (generateMasterKeypair password salt keysize) w
       = (o, r) ->
     (forall url init, In (url, init) (requests (seen r)) ->
        url = route development "/keys" /\ method init = POST /\
        exists pair tempKey spki ciphertext,
          generated (seen r) = [pair] /\
          exported (seen r) = [(publicKey pair, spki)] /\
          wrapped (seen r) = [(privateKey pair, tempKey, ciphertext)] /\
          req_body init = Some (JSON_MasterKeys
            {| mk_publicKey := spki;
               mk_privateKey := ciphertext;
               hashSalt := encode salt;
               mk_hashParams := hashParams w |})) /\
     (forall store record, In (store, record) (stores (seen r)) ->
        store = "keys" /\
        kr_id record = u_id (user (userStore w)) /\
        generated (seen r) =
          [mkKeyPair (kr_publicKey record) (kr_privateKey record)] /\
        exists res, map snd (responses (seen r)) = [res] /\
                    status res = 201) /\
     (length (requests (seen r)) <= 1)%nat /\
     (o = Fulfilled tt -> length (stores (seen r)) = 1%nat)) /\
  (forall password o r,
     exec env history (retrieveMasterKeypair password) w = (o, r) ->
     (forall url init, In (url, init) (requests (seen r)) ->
        url = route development "/keys" /\ method init = GET /\
        req_body init = None) /\
     (forall store record, In (store, record) (stores (seen r)) ->
        store = "keys" /\
        kr_id record = u_id (user (userStore w)) /\
        exists keys tempKey,
          map mk_privateKey (master_keys (seen r)) = [keys] /\
          unwrapped (seen r) = [(keys, tempKey, kr_privateKey record)]) /\
     (length (requests (seen r)) <= 1)%nat /\
     (o = Fulfilled tt -> length (stores (seen r)) = 1%nat)).
Proof.
  split.
  - intros password salt keysize o r H.
    unfold exec, generateMasterKeypair, hashPassword, detach in H.
    run_all H; finish H; tests; settle.
    all: repeat first [ split | eexists ]; cbn; auto.
    all: match goal with p : CryptoKeyPair |- _ => destruct p end.
    all: reflexivity.
  - intros password o r H.
    unfold exec, retrieveMasterKeypair, hashPassword in H.
    run_all H; finish H; tests; settle.
    all: repeat first [ split | eexists ]; cbn; auto.
Qed.

Lemma register_posts (history : list Obs) (w : World) (user : AuthUser)
    (salt : bytes) (o : Settled unit) (r : Run) :
  exec env history (register user salt) w = (o, r) ->
  posts (seen r) = [hash_request w (password user) salt] /\
  timeCost (hashParams (world r)) = timeCost (hashParams w) /\
  memoryCost (hashParams (world r)) = memoryCost (hashParams w) /\
  threads (hashParams (world r)) = threads (hashParams w).
Proof.
  intros H.
  unfold exec, register, authenticate, hashPassword, detach in H.
  run_all H; finish H; repeat split.
Qed.

Lemma generateMasterKeypair_posts (history : list Obs) (w : World)
    (password : string) (salt : bytes) (keysize : Z) (o : Settled unit)
    (r : Run) :
  exec env history (generateMasterKeypair password salt keysize) w
    = (o, r) ->
  posts (seen r) = [hash_request w password salt].
Proof.
  intros H.
  unfold exec, generateMasterKeypair, hashPassword, detach in H.
  run_all H; finish H; reflexivity.
Qed.

(** C2, as the code has it.  [register] hashes with the salt it is
    given and [generateMasterKeypair] with the salt it is given; called
    on the state [register] leaves, it uses the same cost parameters.
    So the two salts differ when the caller passes different salts, and
    are the same when the caller passes the same salt twice: neither
    call compares them. *)
Theorem registration_salts_are_the_callers (history history' : list Obs)
    (w : World) (user : AuthUser) (authSalt : bytes) (pw : string)
    (wrapSalt : bytes) (keysize : Z) (o o' : Settled unit) (r r' : Run) :
  exec env history (register user authSalt) w = (o, r) ->
  exec env history' (generateMasterKeypair pw wrapSalt keysize)
    (world r) = (o', r') ->
  posts (seen r) = [hash_request w (password user) authSalt] /\
  posts (seen r') = [hash_request w pw wrapSalt] /\
  (forall a b, In a (posts (seen r)) -> In b (posts (seen r')) ->
     hr_salt a = hr_salt b <-> authSalt = wrapSalt).
Proof.
  intros H H'.
  apply register_posts in H as (-> & Ht & Hm & Hp).
  apply generateMasterKeypair_posts in H' as ->.
  unfold hash_request. rewrite Ht, Hm, Hp.
  split; [reflexivity | split; [reflexivity | ] ].
  intros a b [<- | []] [<- | []]. reflexivity.
Qed.

End Custody.

(** ** Key derivations *)

Section Derivations.

Variable development : bool.
Variable encode : bytes -> string.
Variable decode : string -> bytes.
Variable env : Env.
Variable history : list Obs.

(** C8.  Whatever call is made on the object, every hash request it
    posts to the worker, and every one posted by what it set off, asks
    for 32 bytes. *)
Theorem every_hash_is_32_bytes (c : Call) (w : World) :
  Forall (fun b => hashLen b = 32)
    (posts (seen (complete development encode decode env history c w))).
Proof.
  remember (complete development encode decode env history c w) as r eqn:H.
  unfold complete, next_turn, resume, exec, call_prog in H.
  destruct c;
    unfold ignore, authenticate, retrieveMasterKeypair, register,
      generateMasterKeypair, authenticate, hashPassword, detach in H.
  all: run_all H; subst r; cbn; repeat constructor.
Qed.

End Derivations.

(** ** The theorems at work on scripted runs *)

Module Runs.

Import Sample.

(** Wrong password: the server answers the solution with 401.  Another
    refusal: it answers with 503 and a message. *)
Lemma wrong_password_is_reported :
  fst (login wrong_password fresh false) =
    Rejected (Error "Authentication failure, password is incorrect.") /\
  session_writes (seen (snd (login wrong_password fresh false))) = [] /\
  localStorage (world (snd (login wrong_password fresh false))) =
    localStorage fresh /\
  userStore (world (snd (login wrong_password fresh false))) =
    userStore fresh /\
  fst (login submit_refused fresh false) = Rejected (Error "try later").
Proof.
  destruct (authenticate_submit_failure false enc dec (scripted wrong_password)
              [] fresh alice false
              (surjective_pairing (login wrong_password fresh false)))
    as (Hsubmit & Hfail & _).
  destruct (authenticate_submit_failure false enc dec (scripted submit_refused)
              [] fresh alice false
              (surjective_pairing (login submit_refused fresh false)))
    as (Hrefused & _).
  assert (Ho : fst (login wrong_password fresh false) =
               Rejected (Error "Authentication failure, password is incorrect.")).
  { destruct (Hsubmit "c7" (mkInit POST json_headers None
                              (Some (JSON_SolvedChallenge
                                       (mkSolved "PAYLOAD"))))
                (mkResponse 401)) as (H401 & _).
    - vm_compute. right. left. reflexivity.
    - exact (proj1 (H401 eq_refl)). }
  split; [exact Ho | ].
  destruct Hfail as (Hw & Hls & Hus); [rewrite Ho; discriminate | ].
  do 3 (split; [assumption | ]).
  destruct (Hrefused "c7" (mkInit POST json_headers None
                             (Some (JSON_SolvedChallenge (mkSolved "PAYLOAD"))))
              (mkResponse 503)) as (_ & Hother).
  - vm_compute. right. left. reflexivity.
  - destruct Hother as (_ & _ & Hmsg & _); [discriminate | discriminate | ].
    apply (Hmsg (mkErrorResponse (Some "try later"))).
    vm_compute. left. reflexivity.
Defined.

(** A second factor is required: the server answers the challenge
    request with 412.  No challenge: it answers with 500 and a
    message. *)
Lemma second_factor_is_a_return_value :
  fst (login totp_needed fresh false) = Fulfilled TOTPRequired /\
  length (requests (seen (snd (login totp_needed fresh false)))) = 1%nat /\
  unhandled (seen (snd (login totp_needed fresh false))) = [] /\
  fst (login no_challenge fresh false) = Rejected (Error "out of order").
Proof.
  destruct (authenticate_challenge_status false enc dec (scripted totp_needed)
              [] fresh alice false
              (surjective_pairing (login totp_needed fresh false)))
    as (_ & _ & Htotp).
  destruct (authenticate_challenge_status false enc dec (scripted no_challenge)
              [] fresh alice false
              (surjective_pairing (login no_challenge fresh false)))
    as (_ & _ & Hnone).
  destruct (Htotp (mkInit POST json_headers None
                     (Some (JSON_ChallengeRequest
                              (mkChallengeRequest "a@b.com" None))))
              (mkResponse 412)) as (H412 & _).
  - vm_compute. left. reflexivity.
  - destruct (H412 eq_refl) as (Ho & Hlen & Hun).
    do 3 (split; [assumption | ]).
    destruct (Hnone (mkInit POST json_headers None
                       (Some (JSON_ChallengeRequest
                                (mkChallengeRequest "a@b.com" None))))
                (mkResponse 500)) as (_ & H500).
    + vm_compute. left. reflexivity.
    + destruct H500 as (_ & _ & _ & _ & _ & Hmsg & _);
        [discriminate | discriminate | ].
      apply (Hmsg (mkErrorResponse (Some "out of order"))).
      vm_compute. left. reflexivity.
Defined.


(** The decryption of the sample challenge: sixteen bytes of counter,
    then the payload. *)
Lemma sample_challenge_is_split_at_16 :
  decryptions (seen (snd (login happy fresh false))) =
    [(mkAesCtr "AES-CTR" (list_byte_of_string "0123456789abcdef") 64,
      mkCryptoKey 1, list_byte_of_string "PAYLOAD")] /\
  (16 <= length (dec (ch_data a_challenge)))%nat /\
  length (list_byte_of_string "0123456789abcdef") = 16%nat.
Proof.
  destruct (proj1 (authenticate_decrypts_challenge false enc dec
                     (scripted happy) [] fresh alice false
                     (surjective_pairing (login happy fresh false)))
              (mkAesCtr "AES-CTR" (list_byte_of_string "0123456789abcdef") 64)
              (mkCryptoKey 1) (list_byte_of_string "PAYLOAD"))
    as (c & Hc & _ & _ & _ & _ & Hlen & _).
  { vm_compute. left. reflexivity. }
  vm_compute in Hc. injection Hc as <-.
  assert (Hlong : (16 <= length (dec (ch_data a_challenge)))%nat)
    by (vm_compute; lia).
  split; [vm_compute; reflexivity | ].
  split; [exact Hlong | exact (Hlen Hlong)].
Defined.

(** Key reuse with and without stored material. *)
Lemma reuse_with_and_without_material :
  Forall (fun k => k = Some a_salt)
    (imported (seen (snd (login happy with_material true)))) /\
  imported (seen (snd (login happy fresh true))) = [None].
Proof.
  split.
  - apply (proj1 (authenticate_reuse_imports_stored_material false enc dec
                    (scripted happy) [] with_material alice
                    (surjective_pairing (login happy with_material true)))
             a_salt).
    reflexivity.
  - apply (proj2 (authenticate_reuse_imports_stored_material false enc dec
                    (scripted happy) [] fresh alice
                    (surjective_pairing (login happy fresh true)))).
    + reflexivity.
    + vm_compute. discriminate.
Defined.



(** Generating the key pair in a session, and fetching it back: the
    upload carries the ciphertext, the usable keys go to IndexedDB. *)
Lemma key_pair_is_stored_locally :
  ("keys" = "keys" /\
   "user-1" = u_id (user (userStore logged_in)) /\
   generated (seen (snd (key_generation happy logged_in another_salt))) =
     [mkKeyPair (mkCryptoKey 3) (mkCryptoKey 4)] /\
   exists res,
     map snd (responses
                (seen (snd (key_generation happy logged_in another_salt))))
       = [res] /\
     status res = 201) /\
  length (stores (seen (snd (key_retrieval
                               (mkScript 201 200 201 200 0 None a_challenge)
                               logged_in)))) = 1%nat.
Proof.
  destruct (private_key_stays_local false enc dec (scripted happy) []
              logged_in) as [Hgenerate _].
  destruct (private_key_stays_local false enc dec
              (scripted (mkScript 201 200 201 200 0 None a_challenge)) []
              logged_in) as [_ Hretrieve].
  destruct (Hgenerate "correct horse" another_salt 4096 _ _
              (surjective_pairing (key_generation happy logged_in another_salt)))
    as (_ & Hstores & _).
  destruct (Hretrieve "correct horse" _ _
              (surjective_pairing
                 (key_retrieval (mkScript 201 200 201 200 0 None a_challenge)
                    logged_in)))
    as (_ & _ & _ & Hdone).
  split.
  - apply (Hstores "keys" (mkKeyRecord "user-1" (mkCryptoKey 3) (mkCryptoKey 4))).
    vm_compute. left. reflexivity.
  - apply Hdone. vm_compute. reflexivity.
Defined.

(** Registration and key generation with two salts. *)
Lemma two_salts_two_derivations :
  posts (seen (snd (registration happy))) =
    [hash_request fresh "correct horse" a_salt] /\
  posts (seen (snd (key_generation happy
                      (world (snd (registration happy))) another_salt))) =
    [hash_request fresh "correct horse" another_salt].
Proof.
  destruct (registration_salts_are_the_callers false enc dec
              (scripted happy) [] [] fresh alice a_salt
              "correct horse" another_salt 4096
              (surjective_pairing (registration happy))
              (surjective_pairing
                 (key_generation happy (world (snd (registration happy)))
                    another_salt)))
    as (H1 & H2 & _).
  split; [exact H1 | exact H2].
Defined.

(** C2 fails as it is written: the salt of the registration, passed
    again to [generateMasterKeypair], is accepted; both calls fulfil, and
    both derivations have used the same salt. *)
Lemma same_salt_is_accepted :
  fst (registration happy) = Fulfilled tt /\
  fst (key_generation happy (world (snd (registration happy))) a_salt) =
    Fulfilled tt /\
  ~ (forall a b,
       In a (posts (seen (snd (registration happy)))) ->
       In b (posts (seen (snd (key_generation happy
                                 (world (snd (registration happy)))
                                 a_salt)))) ->
       hr_salt a <> hr_salt b).
Proof.
  split; [vm_compute; reflexivity | ].
  split; [vm_compute; reflexivity | ].
  intros H.
  apply (H (hash_request fresh "correct horse" a_salt)
           (hash_request fresh "correct horse" a_salt)).
  - vm_compute. left. reflexivity.
  - vm_compute. left. reflexivity.
  - reflexivity.
Qed.

(** *** The scenarios, run *)

(** A login with the right password. *)
Example login_succeeds :
  fst (login happy fresh false) = Fulfilled Success /\
  localStorage (world (snd (login happy fresh false))) !! CSRF_TOKEN_KEY =
    Some "token-1" /\
  userStore (world (snd (login happy fresh false))) =
    mkUserStore (mkUser "a@b.com" "user-1") true /\
  map fst (requests (seen (snd (login happy fresh false)))) =
    ["https://api.csplan.co/challenge?action=request";
     "https://api.csplan.co/challenge/c7?action=submit"].
Proof. vm_compute. repeat split. Qed.

(** The server refuses the solution with a message of its own. *)
Example refusal_carries_the_server_message :
  fst (login submit_refused fresh false) = Rejected (Error "try later").
Proof. vm_compute. reflexivity. Qed.

(** Without a message, or with an empty one, the fallback text is used. *)
Example refusal_without_message_uses_the_fallback :
  fst (login (mkScript 201 503 201 201 0 None a_challenge) fresh false) =
    Rejected (Error "Error submitting challenge.") /\
  fst (login (mkScript 201 503 201 201 0 (Some EmptyString) a_challenge)
         fresh false) =
    Rejected (Error "Error submitting challenge.") /\
  fst (login (mkScript 500 200 201 201 0 None a_challenge) fresh false) =
    Rejected (Error "Unknown error requesting an auth challenge").
Proof. vm_compute. repeat split. Qed.

(** The worker reports a failure. *)
Example worker_failure_is_reported :
  fst (login (mkScript 201 200 201 201 (-1) None a_challenge) fresh false) =
    Rejected (Error "Error running argon2.") /\
  fst (exec (scripted (mkScript 201 200 201 201 (-1) None a_challenge)) []
         (register false enc dec alice a_salt) fresh) =
    Rejected (Error "Error running argon2.").
Proof. vm_compute. repeat split. Qed.

(** A challenge whose decoded data is shorter than 16 bytes: the counter
    is all of it, the data is empty. *)
Example short_challenge_has_a_short_counter :
  decryptions (seen (snd (login short_challenge fresh false))) =
    [(mkAesCtr "AES-CTR" (list_byte_of_string "abc") 64, mkCryptoKey 1, [])].
Proof. vm_compute. reflexivity. Qed.

(** A registration and the login it sets off, in the development
    environment: the three requests, in order, and the session. *)
Example registration_then_login :
  fst (registration happy) = Fulfilled tt /\
  map fst (requests (seen (afterwards happy (snd (registration happy))))) =
    ["https://api.csplan.co/register";
     "https://api.csplan.co/challenge?action=request";
     "https://api.csplan.co/challenge/c7?action=submit"] /\
  unhandled (seen (afterwards happy (snd (registration happy)))) = [] /\
  pending (afterwards happy (snd (registration happy))) = [] /\
  hashParams (world (afterwards happy (snd (registration happy)))) =
    server_hashParams.
Proof. vm_compute. repeat split. Qed.

(** Without a token in [localStorage], nothing is uploaded. *)
Example key_generation_needs_a_token :
  fst (key_generation happy fresh another_salt) =
    Rejected (Error "Failed to retrieve CSRF-Token from localstorage.") /\
  requests (seen (snd (key_generation happy fresh another_salt))) = [].
Proof. vm_compute. repeat split. Qed.

End Runs.

(** ** More of the client *)

Section ClientAtLarge.

Variable development : bool.
Variable encode : bytes -> string.
Variable decode : string -> bytes.
Variable env : Env.
Variable history : list Obs.

(** X1.  Whatever call is made, every request it sends, and every
    request sent by what it set off, goes to one of the four paths of
    the API under [route], and is announced as JSON. *)
Theorem every_request_goes_to_the_api (c : Call) (w : World) :
  Forall (fun q : string * RequestInit =>
            (exists path, api_path path /\
                          fst q = route development path) /\
            In ("Content-Type", Some "application/json") (headers (snd q)))
    (requests (seen (complete development encode decode env history c w))).
Proof.
  remember (complete development encode decode env history c w) as r eqn:H.
  unfold complete, next_turn, resume, exec, call_prog in H.
  destruct c;
    unfold ignore, authenticate, retrieveMasterKeypair, register,
      generateMasterKeypair, authenticate, hashPassword, detach in H.
  all: run_all H; subst r; cbn.
  all: apply List.Forall_forall; intros q Hin.
  all: repeat (destruct Hin as [<- | Hin]; [ | ]); try destruct Hin.
  all: (split; [ eexists; split; [ | reflexivity ] | cbn; auto ]).
  all: unfold api_path, challenge_request_path, challenge_submit_path; eauto 6.
Qed.

End ClientAtLarge.

Section ClientFailures.

Variable development : bool.
Variable encode : bytes -> string.
Variable decode : string -> bytes.
Variable env : Env.
Variable history : list Obs.

Abbreviation authenticate := (authenticate development encode decode).
Abbreviation register := (register development encode decode).
Abbreviation generateMasterKeypair :=
  (generateMasterKeypair development encode).
Abbreviation retrieveMasterKeypair :=
  (retrieveMasterKeypair development decode).
Abbreviation route := (route development).

(** X2.  When the worker answers a hash request with a code other than
    [ARGON2_OK], the call rejects with the argon2 error.  The object's
    key material, [localStorage] and the user store are as before; no
    key has been made of a digest, by [crypto.subtle.importKey] or by
    [aes.importKeyMaterial]; the only key imported at all is the public
    key [retrieveMasterKeypair] imports before it asks for the hash;
    nothing has been written to IndexedDB, no call is left suspended,
    and the only body that may have gone to the server is the challenge
    request. *)
Theorem failed_derivation_stops_the_call (c : Call) (w : World)
    (o : Settled unit) (r : Run) :
  exec env history (call_prog development encode decode c) w = (o, r) ->
  forall m, In m (digests (seen r)) -> code m <> ARGON2_OK ->
    o = Rejected (Error "Error running argon2.") /\
    authKeyMaterial (world r) = authKeyMaterial w /\
    localStorage (world r) = localStorage w /\
    userStore (world r) = userStore w /\
    imported (seen r) = [] /\
    temp_key_imports (seen r) = [] /\
    (forall spki, In spki (public_key_imports (seen r)) ->
       (exists pw, c = call_retrieveMasterKeypair pw) /\
       In spki (map mk_publicKey (master_keys (seen r)))) /\
    stores (seen r) = [] /\
    pending r = [] /\
    Forall (fun b => exists q, b = JSON_ChallengeRequest q)
      (bodies (seen r)).
Proof.
  intros H. unfold exec, call_prog in H.
  destruct c;
    unfold ignore, authenticate, retrieveMasterKeypair, register,
      generateMasterKeypair, hashPassword, detach in H.
  all: run_all H; finish H; tests; settle.
  all: try solve [pick].
  all: repeat constructor; eauto.
Qed.


(** X4.  Without a token in [localStorage], [generateMasterKeypair]
    never fulfils, sends nothing and stores nothing, although it has
    generated and wrapped a key pair by the time it looks for the token:
    once the private key is wrapped it rejects with the missing-token
    error.  With a token, once the private key is wrapped, one request
    goes out, carrying the token and the session's credentials. *)
Theorem generateMasterKeypair_needs_the_token (w : World) (pw : string)
    (salt : bytes) (keysize : Z) (o : Settled unit) (r : Run) :
  exec env history (generateMasterKeypair pw salt keysize) w = (o, r) ->
  (localStorage w !! CSRF_TOKEN_KEY = None ->
     o <> Fulfilled tt /\
     requests (seen r) = [] /\
     stores (seen r) = [] /\
     pending r = [] /\
     (wrapped (seen r) <> [] ->
      o = Rejected
            (Error "Failed to retrieve CSRF-Token from localstorage."))) /\
  (forall token, localStorage w !! CSRF_TOKEN_KEY = Some token ->
     wrapped (seen r) <> [] ->
     exists init,
       requests (seen r) = [(route "/keys", init)] /\
       method init = POST /\
       headers init = json_headers ++ [("CSRF-Token", Some token)] /\
       credentials init = Some "include").
Proof.
  intros H. unfold exec, generateMasterKeypair, hashPassword, detach in H.
  run_all H; finish H; tests; settle.
  all: eexists; repeat split; congruence.
Qed.

(** X5.  When the server answers the upload of the key pair with another
    status than 201, [generateMasterKeypair] writes nothing to IndexedDB
    and, once the error body is read, rejects with the server's message,
    or with the fallback text. *)
Theorem refused_upload_stores_nothing (w : World) (pw : string)
    (salt : bytes) (keysize : Z) (o : Settled unit) (r : Run) :
  exec env history (generateMasterKeypair pw salt keysize) w = (o, r) ->
  forall url init res,
    In (url, init, res) (responses (seen r)) -> status res <> 201 ->
    stores (seen r) = [] /\
    pending r = [] /\
    o <> Fulfilled tt /\
    (forall err, In (res, err) (error_bodies (seen r)) ->
       o = Rejected
             (Error (or_else (message err)
                       "Failed to store master keypair"))).
Proof.
  intros H. unfold exec, generateMasterKeypair, hashPassword, detach in H.
  run_all H; finish H; tests; settle.
Qed.

(** X6.  [retrieveMasterKeypair] always sends exactly one request, a GET
    with the session's credentials whose [CSRF-Token] header is whatever
    [localStorage] holds, [null] when it holds nothing.  An answer with
    another status than 200 makes it reject, before any hash is
    requested or any key imported and with the object's hash parameters
    untouched: with the server's message, or with the fallback text,
    when the error body is read, and with the error of [res.json()]
    when it is not. *)
Theorem retrieveMasterKeypair_request (w : World) (pw : string)
    (o : Settled unit) (r : Run) :
  exec env history (retrieveMasterKeypair pw) w = (o, r) ->
  requests (seen r) =
    [(route "/keys",
      {| method := GET;
         headers := json_headers ++
                    [("CSRF-Token", localStorage w !! CSRF_TOKEN_KEY)];
         credentials := Some "include";
         req_body := None |})] /\
  (forall url init res,
     In (url, init, res) (responses (seen r)) -> status res <> 200 ->
     (exists e, o = Rejected e) /\
     posts (seen r) = [] /\
     public_key_imports (seen r) = [] /\
     hashParams (world r) = hashParams w /\
     stores (seen r) = [] /\
     ((exists err, error_bodies (seen r) = [(res, err)]) \/
      (exists e, unread_errors (seen r) = [(res, e)])) /\
     (forall err, In (res, err) (error_bodies (seen r)) ->
        o = Rejected
              (Error (or_else (message err)
                        "Failed to fetch master keypair"))) /\
     (forall e, In (res, e) (unread_errors (seen r)) -> o = Rejected e)).
Proof.
  intros H. unfold exec, retrieveMasterKeypair, hashPassword in H.
  run_all H; finish H; tests; settle.
  all: outcomes; solve [pick].
Qed.

(** X7.  Every hash [retrieveMasterKeypair] asks for is for the password
    it was given, the decoded [hashSalt] of the key pair the server
    returned and the cost parameters that came with it, which by then
    are the object's hash parameters.  The console shows nothing but the
    wrapped private key as the server sent it. *)
Theorem retrieveMasterKeypair_uses_the_stored_parameters (w : World)
    (pw : string) (o : Settled unit) (r : Run) :
  exec env history (retrieveMasterKeypair pw) w = (o, r) ->
  (forall b, In b (posts (seen r)) ->
     exists keys,
       master_keys (seen r) = [keys] /\
       b = {| hr_password := pw;
              hr_salt := decode (hashSalt keys);
              hr_timeCost := timeCost (mk_hashParams keys);
              hr_memoryCost := memoryCost (mk_hashParams keys);
              hr_threads := threads (mk_hashParams keys);
              hashLen := 32 |} /\
       hashParams (world r) = mk_hashParams keys) /\
  (posts (seen r) = [] -> hashParams (world r) = hashParams w) /\
  (forall s, In s (consoles (seen r)) ->
     In s (map mk_privateKey (master_keys (seen r)))).
Proof.
  intros H. unfold exec, retrieveMasterKeypair, hashPassword in H.
  run_all H; finish H; tests; settle.
  all: try (eexists; repeat split; reflexivity).
  all: cbn; auto.
Qed.

(** X8.  Neither [generateMasterKeypair] nor [retrieveMasterKeypair]
    keeps the material of the temp key: the object's authentication key
    material, [localStorage] and the user store are after the call what
    they were before it, and [generateMasterKeypair] leaves the hash
    parameters alone too. *)
Theorem temp_key_material_is_not_retained (w : World) (pw : string) :
  (forall salt keysize o r,
     exec env history (generateMasterKeypair pw salt keysize) w = (o, r) ->
     world r = w) /\
  (forall o r,
     exec env history (retrieveMasterKeypair pw) w = (o, r) ->
     authKeyMaterial (world r) = authKeyMaterial w /\
     localStorage (world r) = localStorage w /\
     userStore (world r) = userStore w).
Proof.
  split.
  - intros salt keysize o r H.
    unfold exec, generateMasterKeypair, hashPassword, detach in H.
    run_all H; finish H; reflexivity.
  - intros o r H.
    unfold exec, retrieveMasterKeypair, hashPassword in H.
    run_all H; finish H; repeat split.
Qed.

End ClientFailures.

Section ClientSuccess.

Variable development : bool.
Variable encode : bytes -> string.
Variable decode : string -> bytes.
Variable env : Env.
Variable history : list Obs.

Abbreviation authenticate := (authenticate development encode decode).
Abbreviation register := (register development encode decode).
Abbreviation generateMasterKeypair :=
  (generateMasterKeypair development encode).
Abbreviation retrieveMasterKeypair :=
  (retrieveMasterKeypair development decode).
Abbreviation route := (route development).

(** X9.  The solution [authenticate] submits is the encoding of what
    the decryption returned, and it goes to the path of the challenge
    that was received; the challenge request and this solution are all
    [authenticate] has sent by then. *)
Theorem solution_is_the_encoded_plaintext (w : World) (user : AuthUser)
    (reuse : bool) (o : Settled AuthConditions) (r : Run) :
  exec env history (authenticate user reuse) w = (o, r) ->
  forall s, In (JSON_SolvedChallenge s) (bodies (seen r)) ->
    exists c alg key data plain,
      challenges (seen r) = [c] /\
      decrypt_results (seen r) = [(alg, key, data, plain)] /\
      s = mkSolved (encode plain) /\
      map fst (requests (seen r)) =
        [route challenge_request_path;
         route (challenge_submit_path (ch_id c))] /\
      bodies (seen r) =
        [JSON_ChallengeRequest (mkChallengeRequest (email user) (totp user));
         JSON_SolvedChallenge s].
Proof.
  intros H. unfold exec, authenticate, hashPassword in H.
  run_all H; finish H; tests; settle.
  all: match goal with
       | E : JSON_SolvedChallenge _ = JSON_SolvedChallenge _ |- _ =>
           injection E as <-
       end.
  all: repeat eexists.
Qed.


(** X11.  With a codec that decodes what it encodes, the key
    [register] sends splits at the [saltLen] it sends along: the bytes
    before are the salt, the bytes after are the digest of the worker.
    The cost parameters sent are those the hash was made with. *)
Theorem registered_key_splits_at_saltLen (w : World) (user : AuthUser)
    (salt : bytes) (o : Settled unit) (r : Run) :
  (forall s, decode (encode s) = s) ->
  exec env history (register user salt) w = (o, r) ->
  forall q, In (JSON_RegisterRequest q) (bodies (seen r)) ->
    rr_email q = email user /\
    saltLen (rr_hashParams q) = Z.of_nat (length salt) /\
    hp_type (rr_hashParams q) = hp_type (hashParams w) /\
    posts (seen r) =
      [ {| hr_password := password user;
           hr_salt := salt;
           hr_timeCost := timeCost (rr_hashParams q);
           hr_memoryCost := memoryCost (rr_hashParams q);
           hr_threads := threads (rr_hashParams q);
           hashLen := 32 |} ] /\
    firstn (Z.to_nat (saltLen (rr_hashParams q))) (decode (rr_key q)) = salt /\
    map msg_body (digests (seen r)) =
      [skipn (Z.to_nat (saltLen (rr_hashParams q))) (decode (rr_key q))].
Proof.
  intros Hcodec H.
  unfold exec, register, authenticate, hashPassword, detach in H.
  run_all H; finish H; tests; settle.
  all: match goal with
       | E : JSON_RegisterRequest _ = JSON_RegisterRequest _ |- _ =>
           injection E as <-
       end.
  all: cbn; rewrite ?Hcodec, ?Nat2Z.id; unfold ABconcat.
  all: repeat split;
       rewrite ?firstn_app, ?skipn_app, ?Nat.sub_diag, ?firstn_all,
         ?skipn_all, ?app_nil_r; cbn; rewrite ?app_nil_r; reflexivity.
Qed.

End ClientSuccess.

(** ** A call among other calls *)

Section AmongCalls.

Variable development : bool.
Variable encode : bytes -> string.
Variable decode : string -> bytes.
Variable env : Env.
Variable history : list Obs.
Variable others : list Obs -> World -> World.

Abbreviation generateMasterKeypair :=
  (generateMasterKeypair development encode).
Abbreviation retrieveMasterKeypair :=
  (retrieveMasterKeypair development decode).

(** What [generateMasterKeypair] asks and sends, among other calls. *)
Lemma generateMasterKeypair_among (w : World) (pw : string) (salt : bytes)
    (keysize : Z) (o : Settled unit) (r : Run) :
  exec_among env history others (generateMasterKeypair pw salt keysize) w
    = (o, r) ->
  posts (seen r) = [hash_request w pw salt] /\
  (bodies (seen r) = [] \/
   exists keys,
     bodies (seen r) = [JSON_MasterKeys keys] /\
     hashSalt keys = encode salt /\
     (forall p, (forall h v, hashParams (others h v) = p) ->
                mk_hashParams keys = p) /\
     ((forall h v, cost (hashParams (others h v)) = cost (hashParams v)) ->
      cost (mk_hashParams keys) = cost (hashParams w))).
Proof.
  intros H.
  unfold exec_among, generateMasterKeypair, hashPassword, detach in H.
  run_all H; injection H as <- <-; cbn; (split; [reflexivity | ]).
  all: first [ left; reflexivity | right ].
  all: eexists; split; [reflexivity | ]; cbn.
  all: split; [reflexivity | ].
  all: split; [intros p Hp; apply Hp | intros Hc; rewrite !Hc; reflexivity].
Qed.

(** What [retrieveMasterKeypair] asks, among other calls. *)
Lemma retrieveMasterKeypair_among (w : World) (pw : string)
    (o : Settled unit) (r : Run) :
  exec_among env history others (retrieveMasterKeypair pw) w = (o, r) ->
  forall b, In b (posts (seen r)) ->
  exists keys,
    master_keys (seen r) = [keys] /\
    b = {| hr_password := pw;
           hr_salt := decode (hashSalt keys);
           hr_timeCost := timeCost (mk_hashParams keys);
           hr_memoryCost := memoryCost (mk_hashParams keys);
           hr_threads := threads (mk_hashParams keys);
           hashLen := 32 |}.
Proof.
  intros H.
  unfold exec_among, retrieveMasterKeypair, hashPassword in H.
  run_all H; injection H as <- <-; cbn; settle.
  all: eexists; split; reflexivity.
Qed.

End AmongCalls.

Section TempKey.

Variable development : bool.
Variable encode : bytes -> string.
Variable decode : string -> bytes.
Variable env : Env.
Variable history history' : list Obs.
Variable others others' : list Obs -> World -> World.

Abbreviation generateMasterKeypair :=
  (generateMasterKeypair development encode).
Abbreviation retrieveMasterKeypair :=
  (retrieveMasterKeypair development decode).


End TempKey.

(** ** The accessors of [localStorage] *)

Module StorageFacts.

Import Storage.

(** The value of decimal digits read after [acc]. *)
Fixpoint uint_value (d : Decimal.uint) (acc : N) : N :=
  match d with
  | Decimal.Nil => acc
  | Decimal.D0 d => uint_value d (10 * acc)
  | Decimal.D1 d => uint_value d (10 * acc + 1)
  | Decimal.D2 d => uint_value d (10 * acc + 2)
  | Decimal.D3 d => uint_value d (10 * acc + 3)
  | Decimal.D4 d => uint_value d (10 * acc + 4)
  | Decimal.D5 d => uint_value d (10 * acc + 5)
  | Decimal.D6 d => uint_value d (10 * acc + 6)
  | Decimal.D7 d => uint_value d (10 * acc + 7)
  | Decimal.D8 d => uint_value d (10 * acc + 8)
  | Decimal.D9 d => uint_value d (10 * acc + 9)
  end%N.

(** Digits by their codes, computed. *)
Ltac digits :=
  repeat match goal with
         | |- context [digit_value ?radix ?c] =>
             let v := eval vm_compute in (digit_value radix c) in
             change (digit_value radix c) with v
         end.

Lemma scan_decimal (d : Decimal.uint) (a : N) :
  scan 10 (NilEmpty.string_of_uint d) (Some a) = Some (uint_value d a).
Proof.
  revert a. induction d; intros a; cbn; digits; cbn; rewrite ?IHd;
    try reflexivity; f_equal; f_equal; lia.
Qed.

Lemma scan_decimal_start (d : Decimal.uint) :
  d <> Decimal.Nil ->
  scan 10 (NilEmpty.string_of_uint d) None = Some (uint_value d 0).
Proof.
  destruct d; intros Hd; try congruence; cbn; digits; cbn;
    rewrite scan_decimal; reflexivity.
Qed.

Lemma uint_value_pos (d : Decimal.uint) (p : positive) :
  uint_value d (Npos p) = Npos (Pos.of_uint_acc d p).
Proof.
  revert p. induction d; intros p; cbn [uint_value Pos.of_uint_acc];
    try reflexivity.
  all: match goal with
       | |- uint_value _ ?a = _ =>
           match goal with
           | |- _ = N.pos (Pos.of_uint_acc _ ?q) =>
               replace a with (N.pos q) by lia
           end
       end; apply IHd.
Qed.

Lemma uint_value_zero (d : Decimal.uint) :
  uint_value d 0 = N.of_uint d.
Proof.
  induction d; cbn [uint_value]; try reflexivity;
    try (exact IHd);
    change (10 * 0 + ?k)%N with k; apply uint_value_pos.
Qed.

Lemma pos_digits_value (p : positive) :
  uint_value (Pos.to_uint p) 0 = Npos p.
Proof.
  rewrite uint_value_zero.
  exact (DecimalN.Unsigned.of_to (Npos p)).
Qed.

Lemma pos_digits_not_nil (p : positive) : Pos.to_uint p <> Decimal.Nil.
Proof.
  intros E. pose proof (pos_digits_value p) as H. rewrite E in H.
  discriminate H.
Qed.

(** Decimal digits begin with a digit, and never with [0x]. *)
Definition plain_start (s : string) : Prop :=
  trim_start s = s /\
  match s with
  | String "-" _ | String "+" _ => False
  | String "0" (String "x" _) | String "0" (String "X" _) => False
  | _ => True
  end.

(** No white space begins with an ASCII character that is not white
    space itself. *)
Lemma trim_start_plain (c : ascii) (s : string) :
  is_whitespace c = false -> (N_of_ascii c <? 128)%N = true ->
  trim_start (String c s) = String c s.
Proof.
  intros Hw Hc. apply N.ltb_lt in Hc. cbn [trim_start]. rewrite Hw.
  assert (H194 : (N_of_ascii c =? 194)%N = false) by (apply N.eqb_neq; lia).
  assert (H225 : (N_of_ascii c =? 225)%N = false) by (apply N.eqb_neq; lia).
  assert (H226 : (N_of_ascii c =? 226)%N = false) by (apply N.eqb_neq; lia).
  assert (H227 : (N_of_ascii c =? 227)%N = false) by (apply N.eqb_neq; lia).
  assert (H239 : (N_of_ascii c =? 239)%N = false) by (apply N.eqb_neq; lia).
  destruct s as [ | c2 [ | c3 s3]]; try reflexivity;
    unfold is_whitespace2, is_whitespace3;
    rewrite ?H194, ?H225, ?H226, ?H227, ?H239; reflexivity.
Qed.

Lemma digits_plain_start (d : Decimal.uint) :
  plain_start (NilEmpty.string_of_uint d).
Proof.
  split.
  - destruct d as [ | d | d | d | d | d | d | d | d | d | d ];
      [reflexivity | .. ]; apply trim_start_plain; reflexivity.
  - destruct d as [ | d | d | d | d | d | d | d | d | d | d ]; cbn;
      try exact I.
    destruct d; exact I.
Qed.

(** A natural number below 2^53 is a double. *)
Lemma to_double_small (n : N) : (n < 2 ^ 53)%N -> to_double n = Some n.
Proof.
  intros H. unfold to_double.
  destruct (N.ltb_spec n (2 ^ 53)); [reflexivity | lia].
Qed.

Lemma parseInt_plain (s : string) :
  plain_start s ->
  parseInt s = match scan 10 s None with
               | None => NaN
               | Some 0%N => Int 0
               | Some v =>
                   match to_double v with
                   | Some d => Int (Z.of_N d)
                   | None => Infinity false
                   end
               end.
Proof.
  intros [Ht Hs]. unfold parseInt. rewrite Ht.
  destruct s as [ | c s ]; [reflexivity | ].
  destruct c as [[|] [|] [|] [|] [|] [|] [|] [|]]; try reflexivity;
    try (exfalso; exact Hs).
  destruct s as [ | c s ]; [reflexivity | ].
  destruct c as [[|] [|] [|] [|] [|] [|] [|] [|]]; try reflexivity;
    exfalso; exact Hs.
Qed.

Lemma parseInt_digits (p : positive) :
  (Npos p < 2 ^ 53)%N ->
  parseInt (NilEmpty.string_of_uint (Pos.to_uint p)) = Int (Zpos p).
Proof.
  intros Hp.
  rewrite parseInt_plain by apply digits_plain_start.
  rewrite scan_decimal_start by apply pos_digits_not_nil.
  rewrite pos_digits_value, (to_double_small Hp). reflexivity.
Qed.

Lemma parseInt_minus (s : string) :
  plain_start s ->
  parseInt (String "-" s) = match scan 10 s None with
                            | None => NaN
                            | Some 0%N => NegativeZero
                            | Some v =>
                                match to_double v with
                                | Some d => Int (- Z.of_N d)
                                | None => Infinity true
                                end
                            end.
Proof.
  intros [Ht Hs]. unfold parseInt.
  rewrite (@trim_start_plain "-" s eq_refl eq_refl).
  destruct s as [ | c s ]; [reflexivity | ].
  destruct c as [[|] [|] [|] [|] [|] [|] [|] [|]]; try reflexivity;
    try (exfalso; exact Hs).
  destruct s as [ | c s ]; [reflexivity | ].
  destruct c as [[|] [|] [|] [|] [|] [|] [|] [|]]; try reflexivity;
    exfalso; exact Hs.
Qed.

(** What [toString] writes of an integer a number holds exactly,
    [parseInt] reads back. *)
Lemma parseInt_toString (z : Z) :
  safe_integer z -> parseInt (toString z) = Int z.
Proof.
  unfold safe_integer. intros Hz.
  destruct z as [ | p | p ]; [reflexivity | apply parseInt_digits; lia | ].
  unfold toString.
  rewrite parseInt_minus by apply digits_plain_start.
  rewrite scan_decimal_start by apply pos_digits_not_nil.
  rewrite pos_digits_value, to_double_small by lia. reflexivity.
Qed.

(** [parseInt] at the edges: an integer no double holds is rounded, a
    tie to the even mantissa; digits stop at the first character that
    is none; [-0] is the negative zero; white space beyond ASCII is
    skipped (here U+00A0 and U+2028); an integer beyond the doubles is
    an infinity. *)
Example parseInt_rounds :
  parseInt "9007199254740993" = Int 9007199254740992 /\
  parseInt "9007199254740995" = Int 9007199254740996 /\
  parseInt "-18014398509481990" = Int (-18014398509481992).
Proof. repeat split; vm_compute; reflexivity. Qed.

Example parseInt_reads_a_prefix :
  parseInt "  12px" = Int 12 /\ parseInt "0x1F" = Int 31 /\
  parseInt "px" = NaN /\ parseInt "" = NaN /\ parseInt "-" = NaN /\
  parseInt "-0" = NegativeZero.
Proof. repeat split; vm_compute; reflexivity. Qed.

Example parseInt_skips_white_space :
  parseInt (String (ascii_of_N 194) (String (ascii_of_N 160) "7")) = Int 7 /\
  parseInt (String (ascii_of_N 226) (String (ascii_of_N 128)
              (String (ascii_of_N 168) " 42"))) = Int 42 /\
  parseInt (String (ascii_of_N 226) (String (ascii_of_N 128)
              (String (ascii_of_N 139) "42"))) = NaN.
Proof. repeat split; vm_compute; reflexivity. Qed.

Example parseInt_overflows :
  parseInt (String.concat "" (repeat "9" 400)) = Infinity false /\
  parseInt (String "-" (String.concat "" (repeat "9" 400))) = Infinity true.
Proof. split; vm_compute; reflexivity. Qed.

Section Accessors.

Variable UserT : Type.
Variable JSON_stringify : UserT -> string.
Variable JSON_parse : string -> Settled (option UserT).

Abbreviation getUser := (getUser JSON_parse).
Abbreviation setUser := (setUser JSON_stringify).

(** X13.  An authorisation level that is stored comes back: for every
    integer a number holds exactly, [getAuthLevel] after [setAuthLevel]
    is that integer, whatever else the storage holds.  With no level
    stored, [getAuthLevel] is [NaN]. *)
Theorem auth_level_round_trip (ls : gmap string string) :
  (forall authLevel, safe_integer authLevel ->
     getAuthLevel (setAuthLevel authLevel ls) = Int authLevel) /\
  (ls !! Keys_AuthLevel = None -> getAuthLevel ls = NaN).
Proof.
  split.
  - intros authLevel Hsafe. unfold getAuthLevel, setAuthLevel.
    rewrite lookup_insert_eq. apply parseInt_toString. exact Hsafe.
  - intros H. unfold getAuthLevel. rewrite H. reflexivity.
Qed.

(** The token that is stored comes back, and so does the user
    when [JSON.parse] reads what [JSON.stringify] wrote. *)
Theorem token_and_user_round_trip (ls : gmap string string) :
  (forall token, getCSRFtoken (setCSRFtoken token ls) = Some token) /\
  (forall u, JSON_parse (JSON_stringify u) = Fulfilled (Some u) ->
     getUser (setUser u ls) = Fulfilled (Some u)).
Proof.
  split.
  - intros token. apply lookup_insert_eq.
  - intros u H. unfold getUser, Storage.getUser, setUser, Storage.setUser.
    rewrite lookup_insert_eq. exact H.
Qed.

(** X14.  The three entries do not interfere: storing one of the token,
    the user and the authorisation level leaves what the accessors of
    the other two return as it was. *)
Theorem storage_entries_are_independent (ls : gmap string string)
    (token : string) (u : UserT) (authLevel : Z) :
  (getUser (setCSRFtoken token ls) = getUser ls /\
   getAuthLevel (setCSRFtoken token ls) = getAuthLevel ls) /\
  (getCSRFtoken (setUser u ls) = getCSRFtoken ls /\
   getAuthLevel (setUser u ls) = getAuthLevel ls) /\
  (getCSRFtoken (setAuthLevel authLevel ls) = getCSRFtoken ls /\
   getUser (setAuthLevel authLevel ls) = getUser ls).
Proof.
  unfold getUser, Storage.getUser, getAuthLevel, getCSRFtoken, setUser,
    Storage.setUser, setAuthLevel, setCSRFtoken.
  repeat split; rewrite lookup_insert_ne; try reflexivity; discriminate.
Qed.

End Accessors.

End StorageFacts.

(** ** The further theorems at work on scripted runs *)

Module MoreRuns.

Import Sample Scenes.

(** A registration whose hash fails. *)
Lemma failed_hash_stops_registration :
  fst (call worker_down (call_register alice a_salt) fresh) =
    Rejected (Error "Error running argon2.") /\
  bodies (seen (snd (call worker_down (call_register alice a_salt) fresh)))
    = [].
Proof.
  destruct (@failed_derivation_stops_the_call false enc dec
              (scripted worker_down) [] (call_register alice a_salt) fresh
              _ _ (surjective_pairing _) (mkMessage (-1) sample_digest))
    as (Ho & _ & _ & _ & _ & _ & _ & _ & _ & Hb).
  - vm_compute. left. reflexivity.
  - discriminate.
  - split; [exact Ho | vm_compute; reflexivity].
Defined.


(** Key generation with and without a token. *)
Lemma token_decides_the_upload :
  fst (key_generation happy fresh another_salt) =
    Rejected (Error "Failed to retrieve CSRF-Token from localstorage.") /\
  exists init,
    requests (seen (snd (key_generation happy logged_in another_salt))) =
      [(route false "/keys", init)] /\
    method init = POST /\
    headers init = json_headers ++ [("CSRF-Token", Some "token-1")] /\
    credentials init = Some "include".
Proof.
  destruct (@generateMasterKeypair_needs_the_token false enc
              (scripted happy) [] fresh "correct horse" another_salt 4096
              _ _ (surjective_pairing _)) as (Hnone & _).
  destruct (@generateMasterKeypair_needs_the_token false enc
              (scripted happy) [] logged_in "correct horse" another_salt 4096
              _ _ (surjective_pairing _)) as (_ & Hsome).
  split.
  - apply Hnone; [reflexivity | vm_compute; discriminate].
  - apply (Hsome "token-1"); [reflexivity | vm_compute; discriminate].
Defined.

(** An upload the server refuses. *)
Lemma refused_upload_is_reported :
  stores (seen (snd (key_generation keys_refused logged_in another_salt)))
    = [] /\
  fst (key_generation keys_refused logged_in another_salt) =
    Rejected (Error "Failed to store master keypair").
Proof.
  destruct (@refused_upload_stores_nothing false enc
              (scripted keys_refused) [] logged_in "correct horse"
              another_salt 4096 _ _ (surjective_pairing _)
              (route false "/keys")
              (mkInit POST (json_headers ++ [("CSRF-Token", Some "token-1")])
                 (Some "include")
                 (Some (JSON_MasterKeys
                          (mkMasterKeys "spki" "wrapped" (enc another_salt)
                             default_hashParams))))
              (mkResponse 403))
    as (Hs & _ & _ & Hmsg).
  - vm_compute. left. reflexivity.
  - discriminate.
  - split; [exact Hs | ].
    apply (Hmsg (mkErrorResponse None)). vm_compute. left. reflexivity.
Defined.

(** A download the server refuses, asked for without a token. *)
Lemma refused_download_is_reported :
  map (fun q => headers (snd q))
      (requests (seen (snd (key_retrieval keys_refused fresh)))) =
    [json_headers ++ [("CSRF-Token", None)]] /\
  fst (key_retrieval keys_refused fresh) =
    Rejected (Error "Failed to fetch master keypair").
Proof.
  destruct (@retrieveMasterKeypair_request false dec
              (scripted keys_refused) [] fresh "correct horse"
              _ _ (surjective_pairing _)) as (Hreq & Hfail).
  split.
  - rewrite Hreq. reflexivity.
  - destruct (Hfail (route false "/keys")
                (mkInit GET (json_headers ++ [("CSRF-Token", None)])
                   (Some "include") None)
                (mkResponse 403)) as (_ & _ & _ & _ & _ & _ & Hmsg & _).
    + vm_compute. left. reflexivity.
    + discriminate.
    + apply (Hmsg (mkErrorResponse None)). vm_compute. left. reflexivity.
Defined.

(** A key pair fetched back: the hash uses what came with it. *)
Lemma download_uses_the_parameters_sent_with_it :
  exists keys,
    master_keys (seen (snd (key_retrieval keys_served logged_in))) = [keys] /\
    {| hr_password := "correct horse";
       hr_salt := dec "wrapsalt";
       hr_timeCost := 2;
       hr_memoryCost := 65536;
       hr_threads := 1;
       hashLen := 32 |} =
    {| hr_password := "correct horse";
       hr_salt := dec (hashSalt keys);
       hr_timeCost := timeCost (mk_hashParams keys);
       hr_memoryCost := memoryCost (mk_hashParams keys);
       hr_threads := threads (mk_hashParams keys);
       hashLen := 32 |} /\
    hashParams (world (snd (key_retrieval keys_served logged_in))) =
      mk_hashParams keys.
Proof.
  apply (proj1 (@retrieveMasterKeypair_uses_the_stored_parameters false dec
                  (scripted keys_served) [] logged_in "correct horse"
                  _ _ (surjective_pairing _))).
  vm_compute. left. reflexivity.
Defined.

(** A key generation leaves the object as it was. *)
Lemma key_generation_keeps_the_world :
  world (snd (key_generation happy logged_in another_salt)) = logged_in.
Proof.
  apply (proj1 (@temp_key_material_is_not_retained false enc dec
                  (scripted happy) [] logged_in "correct horse")
           another_salt 4096 _ _ (surjective_pairing _)).
Defined.

(** The solution of the sample challenge. *)
Lemma sample_solution_is_the_payload :
  exists c alg key data plain,
    challenges (seen (snd (login happy fresh false))) = [c] /\
    decrypt_results (seen (snd (login happy fresh false))) =
      [(alg, key, data, plain)] /\
    mkSolved "PAYLOAD" = mkSolved (enc plain) /\
    map fst (requests (seen (snd (login happy fresh false)))) =
      [route false challenge_request_path;
       route false (challenge_submit_path (ch_id c))] /\
    bodies (seen (snd (login happy fresh false))) =
      [JSON_ChallengeRequest (mkChallengeRequest (email alice) (totp alice));
       JSON_SolvedChallenge (mkSolved "PAYLOAD")].
Proof.
  apply (@solution_is_the_encoded_plaintext false enc dec (scripted happy)
           [] fresh alice false _ _ (surjective_pairing _)).
  vm_compute. right. left. reflexivity.
Defined.


(** The key of the sample registration, split at the salt's length. *)
Lemma sample_key_splits_at_16 :
  firstn (Z.to_nat 16) (dec (enc (a_salt ++ sample_digest))) = a_salt /\
  map msg_body (digests (seen (snd (registration happy)))) =
    [skipn (Z.to_nat 16) (dec (enc (a_salt ++ sample_digest)))].
Proof.
  assert (Hcodec : forall s, dec (enc s) = s)
    by exact list_byte_of_string_of_list_byte.
  destruct (@registered_key_splits_at_saltLen false enc dec (scripted happy)
              [] fresh alice a_salt _ _ Hcodec (surjective_pairing _)
              (mkRegisterRequest "a@b.com" (enc (a_salt ++ sample_digest))
                 (mkHashParams "argon2i" 1 (128 * 1024) 1 16)))
    as (_ & _ & _ & _ & Hsalt & Hdigest).
  - vm_compute. left. reflexivity.
  - split; [exact Hsalt | exact Hdigest].
Defined.


End MoreRuns.

(** ** The store of the user's name *)

Module UserNameFacts.

Import Storage UserName.

(** The tests of a run, put to use in the goal. *)
Ltac use_tests :=
  repeat match goal with
         | H : ?b = true |- context [if ?b then _ else _] => rewrite H
         | H : ?b = false |- context [if ?b then _ else _] => rewrite H
         | H : ?o = Some _ |- context [match ?o with Some _ => _ | None => _ end] =>
             rewrite H
         | H : ?o = None |- context [match ?o with Some _ => _ | None => _ end] =>
             rewrite H
         end.

Ltac string_tests :=
  repeat match goal with
         | H : String.eqb _ _ = true |- _ => apply String.eqb_eq in H
         | H : String.eqb _ _ = false |- _ => apply String.eqb_neq in H
         end.

(** A run of the store, unfolded step by step: how an awaited promise
    settles, or the first test of a condition the code branches on. *)
Ltac first_test b :=
  lazymatch b with
  | ?x || _ => first_test x
  | ?x && _ => first_test x
  | negb ?x => first_test x
  | _ => b
  end.

Ltac name_step H :=
  match type of H with
  | context [match ?a with Fulfilled _ => _ | Rejected _ => _ end] =>
      destruct a
  | context [if ?b then _ else _] =>
      let x := first_test b in
      let E := fresh "Htest" in
      lazymatch x with
      | not_null ?o => destruct o eqn:E
      | _ => destruct x eqn:E
      end
  | context [match ?o with Some _ => _ | None => _ end] =>
      let E := fresh "Hopt" in destruct o eqn:E
  end; cbn in H.

Ltac name_run H := cbn in H; repeat name_step H.

Ltac done_run H :=
  injection H as <- <- <-; cbn; tests; string_tests; use_tests.

(** The tests of a run, put to use everywhere; then what is left is
    choices, witnesses and counting. *)
Ltac name_close :=
  unfold encrypted_fields in *;
  repeat match goal with
         | E : ?x = true |- _ =>
             match goal with
             | H : context [x] |- _ =>
                 lazymatch H with E => fail | _ => rewrite E in H end
             | |- context [x] => rewrite E
             end
         | E : ?x = false |- _ =>
             match goal with
             | H : context [x] |- _ =>
                 lazymatch H with E => fail | _ => rewrite E in H end
             | |- context [x] => rewrite E
             end
         | E : ?x = Some _ |- _ =>
             match goal with
             | H : context [x] |- _ =>
                 lazymatch H with E => fail | _ => rewrite E in H end
             | |- context [x] => rewrite E
             end
         | E : ?x = None |- _ =>
             match goal with
             | H : context [x] |- _ =>
                 lazymatch H with E => fail | _ => rewrite E in H end
             | |- context [x] => rewrite E
             end
         end;
  cbn in *; outcomes;
  try lia; try discriminate; try congruence;
  try solve [repeat constructor];
  try solve [pick].

Ltac name_finish :=
  repeat match goal with
         | H : forall x, Some ?n = Some x -> _ |- _ => specialize (H n eq_refl)
         end;
  name_close;
  try solve [repeat (first [eexists | split; [reflexivity | ] ]); name_close].

Section NameStore.

Variable route : string -> string.
Variable env : Env.
Variable history : list Obs.

Abbreviation init := (init route).
Abbreviation create := (create route).
Abbreviation delete := (delete route).

Lemma init_asks_again (env' : Env) (history' : list Obs) (s : State)
    (o : Settled unit) (s' : State) (os : list Obs) :
  initialized s = false ->
  exec env' history' init s = (o, s', os) ->
  os <> [] /\ length (requests os) = length (user_ids os).
Proof.
  intros Hi H. destruct s as [i v ls]. cbn in Hi. subst i.
  unfold exec, init, init_decrypt in H.
  name_run H; injection H as <- <- <-; split; (discriminate || reflexivity).
Qed.

Lemma init_is_done_once_initialized (env' : Env) (history' : list Obs)
    (s : State) :
  initialized s = true ->
  exec env' history' init s = (Fulfilled tt, s, []).
Proof.
  intros Hi. destruct s as [i v ls]. cbn in Hi. subst i. reflexivity.
Qed.

(** X15.  When the cache holds a name whose checksum is that of the
    server's document, [init] puts that name in the store and is done:
    no key is read, nothing is decrypted, nothing is written to the
    cache.  It does not mark the store as initialized, so the next
    [init] does not return at once: it asks for the user's identity
    and, for each identity it gets, sends its request again. *)
Theorem cached_name_is_not_remembered (s : State) (o : Settled unit)
    (s' : State) (os : list Obs) :
  exec env history init s = (o, s', os) ->
  forall name document,
    In (Some name) (cache_reads os) -> In document (documents os) ->
    n_checksum name = meta_checksum document ->
    o = Fulfilled tt /\
    value s' = name /\
    initialized s' = false /\
    key_reads os = [] /\
    decrypt_calls os = [] /\
    cache_writes os = [] /\
    (forall env' history' o2 s2 os2,
       exec env' history' init s' = (o2, s2, os2) ->
       os2 <> [] /\ length (requests os2) = length (user_ids os2)).
Proof.
  intros H name document Hname Hdoc Hsum.
  assert (Hmain : o = Fulfilled tt /\ value s' = name /\
                  initialized s' = false /\ key_reads os = [] /\
                  decrypt_calls os = [] /\ cache_writes os = []).
  { revert name document Hname Hdoc Hsum.
    destruct s as [i v ls]. unfold exec, init, init_decrypt in H.
    destruct i; name_run H; done_run H; settle. }
  destruct Hmain as (Ho & Hv & Hi & Hk & Hd & Hw).
  do 6 (split; [assumption | ]).
  intros env' history' o2 s2 os2 H2.
  eapply init_asks_again; eassumption.
Qed.

(** X16.  When the server answers 204, there is no name: [init] fulfils
    after that one request, leaves the store's value alone, reads no
    cache, and marks the store as initialized; from then on [init] does
    nothing at all. *)
Theorem no_name_on_the_server (s : State) (o : Settled unit) (s' : State)
    (os : list Obs) :
  exec env history init s = (o, s', os) ->
  forall res, In res (responses os) -> status res = 204 ->
    o = Fulfilled tt /\
    initialized s' = true /\
    value s' = value s /\
    length (requests os) = 1%nat /\
    cache_reads os = [] /\
    (forall env' history',
       exec env' history' init s' = (Fulfilled tt, s', [])).
Proof.
  intros H res Hres H204.
  assert (Hmain : o = Fulfilled tt /\ initialized s' = true /\
                  value s' = value s /\ length (requests os) = 1%nat /\
                  cache_reads os = []).
  { revert res Hres H204.
    destruct s as [i v ls]. unfold exec, init, init_decrypt in H.
    destruct i; name_run H; done_run H; settle. }
  destruct Hmain as (Ho & Hi & Hv & Hr & Hc).
  repeat split; try assumption.
  intros env' history'. apply init_is_done_once_initialized. exact Hi.
Qed.

(** X17.  An [init] that does not fulfil leaves the store uninitialized
    or as initialized as it was, so that it is tried again.  When the
    server answers with another status than 200 or 204, nothing of the
    state has changed and, once [HTTPerror] has made its message,
    [init] rejects with that message. *)
Theorem failed_init_is_not_remembered (s : State) (o : Settled unit)
    (s' : State) (os : list Obs) :
  exec env history init s = (o, s', os) ->
  (o <> Fulfilled tt -> initialized s' = initialized s) /\
  (forall res, In res (responses os) ->
     status res <> 204 -> status res <> 200 ->
     s' = s /\
     o <> Fulfilled tt /\
     forall msg, In msg (error_messages os) -> o = Rejected (Error msg)).
Proof.
  intros H. destruct s as [i v ls]. unfold exec, init, init_decrypt in H.
  destruct i; name_run H; done_run H; settle.
Qed.

(** X18.  What [init] writes to the cache is the name it has put in the
    store, under the identity [getUserID] gave and with the document's
    checksum.
    A field whose visibility is [Encrypted] is the decryption of the
    document's field, a field of any other visibility is the document's
    field as it is, the private display name is [parseInt] of its
    decryption; all decryptions use the key kept in the name, and
    nothing else is decrypted. *)
Theorem init_decrypts_only_encrypted_fields (s : State) (o : Settled unit)
    (s' : State) (os : list Obs) :
  exec env history init s = (o, s', os) ->
  forall store final, In (store, final) (cache_writes os) ->
    exists document,
      documents os = [document] /\
      store = "user-name" /\
      value s' = final /\
      user_ids os = [n_id final] /\
      n_checksum final = meta_checksum document /\
      n_username final = doc_username document /\
      n_displayName final = doc_displayName document /\
      n_visibility final = doc_visibility document /\
      (if is_encrypted (vis_firstName (doc_visibility document))
       then In (doc_firstName document, n_cryptoKey final, n_firstName final)
               (decrypted os)
       else n_firstName final = doc_firstName document) /\
      (if is_encrypted (vis_lastName (doc_visibility document))
       then In (doc_lastName document, n_cryptoKey final, n_lastName final)
               (decrypted os)
       else n_lastName final = doc_lastName document) /\
      match doc_privateDisplayName document with
      | Some cipher =>
          exists plain,
            In (cipher, n_cryptoKey final, plain) (decrypted os) /\
            n_privateDisplayName final = Some (parseInt plain)
      | None => n_privateDisplayName final = None
      end /\
      Forall (fun d => snd d = n_cryptoKey final) (decrypt_calls os) /\
      length (decrypt_calls os) =
        encrypted_fields (doc_visibility document)
          (not_null (doc_privateDisplayName document)).
Proof.
  intros H. destruct s as [i v ls]. unfold exec, init, init_decrypt in H.
  destruct i; name_run H; done_run H; settle.
  all: eexists; split; [reflexivity | ]; unfold encrypted_fields.
  all: use_tests; cbn.
  all: repeat split; eauto 7.
Qed.

(** X19.  [init] reads the master key pair only when [meta.cryptoKey] of
    the document is not [undefined] and something is encrypted; and
    then, unless the cached name is current, it does: once, from the
    store ['keys'] under the identity [getUserID] gave.  With the pair
    it calls [rsa.unwrapKey] on [meta.cryptoKey] as it is, [null]
    included, and the private key of the pair; the key unwrapped is the
    key of every decryption.  When [meta.cryptoKey] is [undefined], no
    key pair is read and every decryption is asked for without a
    key. *)
Theorem master_key_is_read_only_when_needed (s : State) (o : Settled unit)
    (s' : State) (os : list Obs) :
  exec env history init s = (o, s', os) ->
  (forall store key, In (store, key) (key_reads os) ->
     store = "keys" /\ user_ids os = [key] /\ key_reads os = [(store, key)] /\
     exists document,
       documents os = [document] /\
       is_defined (meta_cryptoKey document) = true /\
       (0 < encrypted_fields (doc_visibility document)
              (not_null (doc_privateDisplayName document)))%nat) /\
  (forall document cached,
     In document (documents os) -> In cached (cache_reads os) ->
     (forall name, cached = Some name ->
                   n_checksum name <> meta_checksum document) ->
     is_defined (meta_cryptoKey document) = true ->
     (0 < encrypted_fields (doc_visibility document)
            (not_null (doc_privateDisplayName document)))%nat ->
     exists key, user_ids os = [key] /\ key_reads os = [("keys", key)]) /\
  (forall keys, In keys (key_pairs os) ->
     exists document,
       documents os = [document] /\
       unwrap_calls os =
         [(value_of (meta_cryptoKey document), kr_privateKey keys)]) /\
  (forall wrapped privateKey key,
     In (wrapped, privateKey, key) (unwrapped_keys os) ->
     exists keys document,
       key_pairs os = [keys] /\ privateKey = kr_privateKey keys /\
       documents os = [document] /\
       wrapped = value_of (meta_cryptoKey document) /\
       Forall (fun d => snd d = Some key) (decrypt_calls os)) /\
  (forall document, In document (documents os) ->
     is_defined (meta_cryptoKey document) = false ->
     key_reads os = [] /\
     Forall (fun d => snd d = None) (decrypt_calls os)).
Proof.
  intros H. destruct s as [i v ls]. unfold exec, init, init_decrypt in H.
  destruct i; name_run H; done_run H; settle.
  all: name_finish.
Qed.


(** X21.  When [create] fulfils, the store holds the name as it was
    given, in the clear, with the identity [getUserID] gave, the checksum the
    server returned and the key generated, if one was; that same name
    has been handed to the cache, and the store is initialized.  When
    the server answers with another status than 200, nothing of the
    state has changed, the cache has not been written, and [create]
    rejects with the message of [HTTPerror]. *)
Theorem create_stores_what_it_was_given (s : State) (name : NameData)
    (o : Settled unit) (s' : State) (os : list Obs) :
  exec env history (create name) s = (o, s', os) ->
  (o = Fulfilled tt ->
     exists meta uid,
       metas os = [meta] /\
       user_ids os = [uid] /\
       initialized s' = true /\
       value s' =
         {| n_id := uid;
            n_firstName := d_firstName name;
            n_lastName := d_lastName name;
            n_username := d_username name;
            n_displayName := d_displayName name;
            n_visibility := d_visibility name;
            n_privateDisplayName :=
              option_map Int (d_privateDisplayName name);
            n_cryptoKey := head (generated_keys os);
            n_checksum := mr_checksum meta |} /\
       cache_writes os = [("user-name", value s')]) /\
  (forall res, In res (responses os) -> status res <> 200 ->
     s' = s /\
     cache_writes os = [] /\
     o <> Fulfilled tt /\
     forall msg, In msg (error_messages os) -> o = Rejected (Error msg)) /\
  (o <> Fulfilled tt -> initialized s' = initialized s).
Proof.
  intros H. destruct s as [i v ls]. unfold exec, create in H.
  name_run H; done_run H; settle.
  all: do 2 eexists; repeat split.
Qed.

(** X22.  [delete] sends one DELETE request and touches nothing local:
    the state of the store is what it was and the cache is not written,
    whatever the server answers.  It fulfils on 204; on any other status
    it rejects, with the message of [HTTPerror], or with what
    [HTTPerror] itself rejects with.  So a store that was initialized
    still is after the name is deleted, and [init] still does
    nothing. *)
Theorem delete_leaves_the_local_name (s : State) (o : Settled unit)
    (s' : State) (os : list Obs) :
  exec env history delete s = (o, s', os) ->
  s' = s /\
  cache_writes os = [] /\
  map (fun q => nr_method (snd q)) (requests os) = [HttpDELETE] /\
  uploads os = [] /\
  (forall res, In res (responses os) ->
     (status res = 204 -> o = Fulfilled tt) /\
     (status res <> 204 ->
      (exists e, o = Rejected e) /\
      ((exists msg, error_messages os = [msg]) \/
       (exists e, failed_messages os = [e])) /\
      (forall msg, In msg (error_messages os) -> o = Rejected (Error msg)) /\
      (forall e, In e (failed_messages os) -> o = Rejected e))) /\
  (initialized s = true ->
   forall env' history',
     exec env' history' init s' = (Fulfilled tt, s', [])).
Proof.
  intros H.
  assert (Hmain : s' = s /\ cache_writes os = [] /\
            map (fun q => nr_method (snd q)) (requests os) = [HttpDELETE] /\
            uploads os = [] /\
            (forall res, In res (responses os) ->
               (status res = 204 -> o = Fulfilled tt) /\
               (status res <> 204 ->
                (exists e, o = Rejected e) /\
                ((exists msg, error_messages os = [msg]) \/
                 (exists e, failed_messages os = [e])) /\
                (forall msg, In msg (error_messages os) ->
                             o = Rejected (Error msg)) /\
                (forall e, In e (failed_messages os) -> o = Rejected e)))).
  { destruct s as [i v ls]. unfold exec, delete in H.
    name_run H; done_run H; settle. all: name_finish. }
  destruct Hmain as (Hs & Hw & Hm & Hu & Hres).
  do 4 (split; [assumption | ]). split; [exact Hres | ].
  intros Hi env' history'. subst s'.
  apply init_is_done_once_initialized. exact Hi.
Qed.

(** X23.  Whatever the store asks of the server, it asks once at most,
    at [/name], and with the token [storage.getCSRFtoken] reads as its
    [CSRF-Token] header, be it there or not. *)
Theorem name_requests_carry_the_token (s : State) (call : Prog unit)
    (o : Settled unit) (s' : State) (os : list Obs) :
  call = init \/ (exists name, call = create name) \/ call = delete ->
  exec env history call s = (o, s', os) ->
  (length (requests os) <= 1)%nat /\
  Forall (fun q => fst q = route "/name" /\
                   In ("CSRF-Token", getCSRFtoken (localStorage s))
                      (nr_headers (snd q)))
         (requests os).
Proof.
  intros Hcall H. destruct s as [i v ls].
  unfold getCSRFtoken, Keys_CSRF.
  destruct Hcall as [-> | [[name ->] | ->]];
    unfold exec, init, init_decrypt, create, delete in H.
  - destruct i; name_run H; injection H as <- <- <-; cbn;
      (split; [lia | repeat constructor]).
  - name_run H; injection H as <- <- <-; cbn;
      (split; [lia | repeat constructor]).
  - name_run H; injection H as <- <- <-; cbn;
      (split; [lia | repeat constructor]).
Qed.

End NameStore.

End UserNameFacts.

(** ** The store of the user's name, run *)

Module NameRuns.

Import Storage UserName NameScenes.

Lemma run_eta (A : Type) (x : Settled A * State * list Obs) :
  x = (outcome x, state_after x, trace x).
Proof. destruct x as [[o s] os]. reflexivity. Qed.

(** A visit with the current name in the cache. *)
Lemma cached_name_is_shown :
  value (state_after (visit cache_hit)) = ada /\
  initialized (state_after (visit cache_hit)) = false.
Proof.
  destruct (@UserNameFacts.cached_name_is_not_remembered a_route
              (scripted cache_hit) [] fresh _ _ _ (run_eta _)
              ada ada_document)
    as (_ & Hv & Hi & _).
  - vm_compute. left. reflexivity.
  - vm_compute. left. reflexivity.
  - reflexivity.
  - split; assumption.
Defined.

(** A visit of a user who has no name. *)
Lemma first_visit_without_a_name :
  outcome (visit no_name) = Fulfilled tt /\
  initialized (state_after (visit no_name)) = true.
Proof.
  destruct (@UserNameFacts.no_name_on_the_server a_route
              (scripted no_name) [] fresh _ _ _ (run_eta _)
              (mkResponse 204))
    as (Ho & Hi & _).
  - vm_compute. left. reflexivity.
  - reflexivity.
  - split; assumption.
Defined.

(** A visit the server fails. *)
Lemma broken_visit_is_reported :
  state_after (visit broken) = fresh /\
  outcome (visit broken) =
    Rejected (Error "failed to retrieve name from server").
Proof.
  destruct (@UserNameFacts.failed_init_is_not_remembered a_route
              (scripted broken) [] fresh _ _ _ (run_eta _))
    as (_ & H).
  destruct (H (mkResponse 500)) as (Hs & _ & Hmsg).
  - vm_compute. left. reflexivity.
  - discriminate.
  - discriminate.
  - split; [exact Hs | ].
    apply Hmsg. vm_compute. left. reflexivity.
Defined.

(** A visit that fetches and decrypts the name. *)
Lemma served_name_is_decrypted :
  exists document,
    documents (trace (visit served)) = [document] /\
    n_checksum ada = meta_checksum document /\
    In (doc_firstName document, Some (mkCryptoKey 7), "Ada")
       (decrypted (trace (visit served))) /\
    "Lovelace" = doc_lastName document /\
    length (decrypt_calls (trace (visit served))) = 2%nat.
Proof.
  destruct (@UserNameFacts.init_decrypts_only_encrypted_fields a_route
              (scripted served) [] fresh _ _ _ (run_eta _)
              "user-name" ada)
    as (document & Hdoc & _ & _ & _ & Hsum & _ & _ & _ & Hfirst & Hlast
        & _ & _ & Hlen).
  - vm_compute. left. reflexivity.
  - exists document.
    assert (Hd : document = ada_document).
    { assert (E : documents (trace (visit served)) = [ada_document])
        by (vm_compute; reflexivity).
      rewrite E in Hdoc. injection Hdoc as <-. reflexivity. }
    subst document.
    split; [exact Hdoc | ]. split; [exact Hsum | ].
    split; [exact Hfirst | ]. split; [exact Hlast | exact Hlen].
Defined.

(** The same visit: one read of the master key pair.  A visit whose
    document has [null] for its key: the pair is read all the same, and
    [rsa.unwrapKey] is given the [null]. *)
Lemma served_name_needs_the_master_key :
  key_reads (trace (visit served)) = [("keys", "user-1")] /\
  user_ids (trace (visit served)) = ["user-1"] /\
  key_reads (trace (visit null_key)) = [("keys", "user-1")] /\
  unwrap_calls (trace (visit null_key)) = [(None, mkCryptoKey 2)].
Proof.
  destruct (@UserNameFacts.master_key_is_read_only_when_needed a_route
              (scripted served) [] fresh _ _ _ (run_eta _))
    as (H & _).
  destruct (@UserNameFacts.master_key_is_read_only_when_needed a_route
              (scripted null_key) [] fresh _ _ _ (run_eta _))
    as (_ & Hread & Hunwrap & _).
  destruct (H "keys" "user-1") as (_ & Hid & Hk & _).
  { vm_compute. left. reflexivity. }
  do 2 (split; [assumption | ]).
  destruct (Hread null_key_document None) as (key & Hkey & Hreads).
  { vm_compute. left. reflexivity. }
  { vm_compute. left. reflexivity. }
  { discriminate. }
  { reflexivity. }
  { vm_compute. lia. }
  assert (E : user_ids (trace (visit null_key)) = ["user-1"])
    by (vm_compute; reflexivity).
  rewrite E in Hkey. injection Hkey as <-.
  split; [exact Hreads | ].
  destruct (Hunwrap (mkKeyRecord "user-1" (mkCryptoKey 1) (mkCryptoKey 2)))
    as (document & Hdoc & Hcalls).
  { vm_compute. left. reflexivity. }
  assert (E2 : documents (trace (visit null_key)) = [null_key_document])
    by (vm_compute; reflexivity).
  rewrite E2 in Hdoc. injection Hdoc as <-. exact Hcalls.
Defined.


(** A name saved: the store holds it in the clear. *)
Lemma saved_name_is_kept :
  initialized (state_after (saving served)) = true /\
  n_firstName (value (state_after (saving served))) = "Ada".
Proof.
  destruct (@UserNameFacts.create_stores_what_it_was_given a_route
              (scripted served) [] fresh ada_data _ _ _ (run_eta _))
    as (H & _).
  destruct H as (meta & uid & _ & _ & Hi & Hv & _).
  - reflexivity.
  - split; [exact Hi | ]. rewrite Hv. reflexivity.
Defined.

(** A name deleted on the server: nothing changes here.  A deletion the
    server refuses: nothing changes either, and the call rejects. *)
Lemma deleted_name_stays_in_the_store :
  state_after (deleting no_name) = fresh /\
  outcome (deleting no_name) = Fulfilled tt /\
  state_after (deleting broken) = fresh /\
  outcome (deleting broken) =
    Rejected (Error "failed to delete name from server").
Proof.
  destruct (@UserNameFacts.delete_leaves_the_local_name a_route
              (scripted no_name) [] fresh _ _ _ (run_eta _))
    as (Hs & _ & _ & _ & Hres & _).
  destruct (@UserNameFacts.delete_leaves_the_local_name a_route
              (scripted broken) [] fresh _ _ _ (run_eta _))
    as (Hs' & _ & _ & _ & Hres' & _).
  split; [exact Hs | ]. split.
  - destruct (Hres (mkResponse 204)) as (H204 & _).
    + vm_compute. left. reflexivity.
    + exact (H204 eq_refl).
  - split; [exact Hs' | ].
    destruct (Hres' (mkResponse 500)) as (_ & H500).
    + vm_compute. left. reflexivity.
    + destruct H500 as (_ & _ & Hmsg & _); [discriminate | ].
      apply Hmsg. vm_compute. left. reflexivity.
Defined.

(** The token of the session is in the request of a visit. *)
Lemma visit_sends_the_token :
  getCSRFtoken (localStorage fresh) = Some "token-1" /\
  Forall (fun q => fst q = a_route "/name" /\
                   In ("CSRF-Token", getCSRFtoken (localStorage fresh))
                      (nr_headers (snd q)))
         (requests (trace (visit served))).
Proof.
  destruct (@UserNameFacts.name_requests_carry_the_token a_route
              (scripted served) [] fresh (init a_route) _ _ _
              (or_introl eq_refl) (run_eta _))
    as (_ & H).
  split; [vm_compute; reflexivity | exact H].
Defined.

End NameRuns.

(** ** The IndexedDB handle *)

Module IdbFacts.

Import Idb.

Lemma settled_promise_stays (events : list OpenEvent)
    (p : Promise IDBDatabase) (g : Page) :
  p <> Pending -> fst (fold_left on_open_event events (p, g)) = p.
Proof.
  revert p g.
  induction events as [ | ev events IH]; intros p g Hp; [reflexivity | ].
  cbn [fold_left].
  assert (Hstep : exists g', on_open_event (p, g) ev = (p, g')).
  { destruct p as [ | d | e]; [congruence | | ];
      destruct ev as [result [ | ] | error | result]; cbn; eauto. }
  destruct Hstep as [g' ->]. apply IH. exact Hp.
Qed.

Lemma open_events_open_nothing (events : list OpenEvent)
    (p : Promise IDBDatabase) (g : Page) :
  opens (snd (fold_left on_open_event events (p, g))) = opens g.
Proof.
  revert p g.
  induction events as [ | ev events IH]; intros p g; [reflexivity | ].
  cbn [fold_left].
  destruct ev as [result [ | ] | error | result]; cbn; rewrite IH;
    unfold opens; cbn; rewrite ?flat_map_app; cbn;
    rewrite ?app_nil_r; reflexivity.
Qed.

(** X24.  [getDB] with a database at hand resolves with that database,
    whatever happens next, and opens the database all the same: one
    more open request is made, and when that request succeeds its result
    takes the place of the database at hand, which the promise does not
    see. *)
Theorem getDB_opens_the_database_again (g : Page) (d : IDBDatabase) :
  db g = Some d ->
  forall events,
    fst (getDB g events) = Resolved d /\
    opens (snd (getDB g events)) = opens g ++ [(DB_NAME, DB_VER)] /\
    forall result,
      db (snd (getDB g (events ++ [open_success result]))) = Some result.
Proof.
  intros Hdb events. unfold getDB, getDB_executor. rewrite Hdb. cbn [resolve].
  split; [apply settled_promise_stays; discriminate | ]. split.
  - rewrite open_events_open_nothing. unfold opens. cbn.
    rewrite flat_map_app. reflexivity.
  - intros result. rewrite fold_left_app. cbn [fold_left].
    destruct (fold_left on_open_event events _) as [p g']. reflexivity.
Qed.

(** X25.  [getDB] with no database at hand stays pending until an event
    comes, and the first event decides: an error rejects with the
    error of the request; a success resolves with its result; an upgrade
    creates the store ['keys'] with key path ['id'] and resolves with the
    result, unless creating the store throws, and then the success that
    follows resolves.  Later events do not change the promise. *)
Theorem first_event_settles_getDB (g : Page) :
  db g = None ->
  fst (getDB g []) = Pending /\
  (forall error rest, fst (getDB g (open_error error :: rest)) = Failed error) /\
  (forall result rest,
     fst (getDB g (open_success result :: rest)) = Resolved result) /\
  (forall result rest,
     fst (getDB g (upgradeneeded result false :: rest)) = Resolved result /\
     In (CreateObjectStore result "keys" "id")
        (asked (snd (getDB g [upgradeneeded result false])))) /\
  (forall result result' rest,
     fst (getDB g (upgradeneeded result true :: open_success result' :: rest))
       = Resolved result').
Proof.
  intros Hdb. unfold getDB, getDB_executor. rewrite Hdb. cbn [fold_left].
  split; [reflexivity | ].
  split; [intros; cbn; apply settled_promise_stays; discriminate | ].
  split; [intros; cbn; apply settled_promise_stays; discriminate | ].
  split.
  - intros result rest. split.
    + cbn. apply settled_promise_stays. discriminate.
    + cbn. apply in_or_app. right. left. reflexivity.
  - intros; cbn; apply settled_promise_stays; discriminate.
Qed.

Lemma database_after_events (events : list OpenEvent)
    (p : Promise IDBDatabase) (g : Page) :
  db (snd (fold_left on_open_event events (p, g)))
    = database_after events (db g).
Proof.
  revert p g.
  induction events as [ | ev events IH]; intros p g; [reflexivity | ].
  unfold database_after. cbn [fold_left].
  destruct ev as [result [ | ] | error | result]; cbn; apply IH.
Qed.

(** X26.  The events of a request of [getDB] leave in [db] the result of
    the last upgrade or success among them, or what [db] held when
    there was none.  The next [getDB] resolves at once with exactly that
    database, before any event of its own.  So after any number of
    calls, a [getDB] resolves with the result of the latest request that
    has succeeded, which need not be that of the first. *)
Theorem getDB_remembers_the_database (g : Page) (events : list OpenEvent) :
  db (snd (getDB g events)) = database_after events (db g) /\
  (forall d later,
     database_after events (db g) = Some d ->
     fst (getDB (snd (getDB g events)) later) = Resolved d) /\
  (forall calls result later,
     fst (getDB (after_calls g (calls ++ [events ++ [open_success result]]))
                later)
       = Resolved result).
Proof.
  assert (Hdb : forall g0 events0,
            db (snd (getDB g0 events0)) = database_after events0 (db g0)).
  { intros g0 events0. unfold getDB, getDB_executor.
    rewrite database_after_events. reflexivity. }
  assert (Hnext : forall g0 d later,
            db g0 = Some d -> fst (getDB g0 later) = Resolved d).
  { intros g0 d later E. unfold getDB, getDB_executor. rewrite E.
    cbn [resolve]. apply settled_promise_stays. discriminate. }
  split; [apply Hdb | ]. split.
  - intros d later E. apply Hnext. rewrite Hdb. exact E.
  - intros calls result later. apply Hnext.
    unfold after_calls. rewrite fold_left_app. cbn [fold_left].
    rewrite Hdb. unfold database_after. rewrite fold_left_app. reflexivity.
Qed.

Section Clearing.

Variable transaction_throws : IDBDatabase -> string -> option Failure.

Abbreviation clearStore := (clearStore transaction_throws).

Lemma settled_clear_stays (events : list ClearEvent) (p : Promise unit)
    (g : Page) :
  p <> Pending -> fold_left on_clear_event events (p, g) = (p, g).
Proof.
  revert p g.
  induction events as [ | ev events IH]; intros p g Hp; [reflexivity | ].
  cbn [fold_left].
  assert (Hstep : on_clear_event (p, g) ev = (p, g)).
  { destruct p as [ | [] | e]; [congruence | | ]; destruct ev; reflexivity. }
  rewrite Hstep. apply IH. exact Hp.
Qed.

(** X27.  [clearStore] does not open the database: with no database at
    hand it rejects with a [TypeError] and asks nothing of IndexedDB.
    With a database at hand it clears the store in a [readwrite]
    transaction on that database, and the first event of the request
    settles the promise. *)
Theorem clearStore_needs_an_open_database (g : Page) (storeName : string) :
  (db g = None ->
   forall events, clearStore g storeName events = (Failed TypeError, g)) /\
  (forall d, db g = Some d -> transaction_throws d storeName = None ->
     (forall events,
        asked (snd (clearStore g storeName events)) =
          asked g ++ [Transaction d storeName "readwrite";
                      Clear d storeName]) /\
     fst (clearStore g storeName []) = Pending /\
     (forall rest,
        fst (clearStore g storeName (clear_success :: rest)) = Resolved tt) /\
     (forall error rest,
        fst (clearStore g storeName (clear_error error :: rest))
          = Failed error)).
Proof.
  unfold clearStore, Idb.clearStore, clearStore_executor. split.
  - intros Hdb events. rewrite Hdb. reflexivity.
  - intros d Hdb Hok. rewrite Hdb, Hok. split; [ | split; [ | split]].
    + intros events.
      set (g' := mkPage (Some d)
                   (asked g ++ [Transaction d storeName "readwrite";
                                Clear d storeName])).
      assert (Hgen : forall p, snd (fold_left on_clear_event events (p, g'))
                               = g').
      { induction events as [ | ev events IH]; intros p; [reflexivity | ].
        cbn [fold_left]. destruct ev; cbn; apply IH. }
      rewrite Hgen. reflexivity.
    + reflexivity.
    + intros rest. cbn [fold_left on_clear_event resolve].
      rewrite settled_clear_stays by discriminate. reflexivity.
    + intros error rest. cbn [fold_left on_clear_event reject].
      rewrite settled_clear_stays by discriminate. reflexivity.
Qed.

End Clearing.

End IdbFacts.

(** ** The IndexedDB handle, run *)

Module IdbRuns.

Import Idb IdbScenes.

(** A second [getDB]: the promise and the variable part ways. *)
Lemma second_getDB_opens_again :
  fst (getDB opened_once [open_success second_database])
    = Resolved first_database /\
  db (snd (getDB opened_once [open_success second_database]))
    = Some second_database /\
  opens (snd (getDB opened_once [])) =
    [(DB_NAME, DB_VER); (DB_NAME, DB_VER)].
Proof.
  destruct (@IdbFacts.getDB_opens_the_database_again opened_once
              first_database eq_refl [])
    as (_ & Hopens & Hdb).
  destruct (@IdbFacts.getDB_opens_the_database_again opened_once
              first_database eq_refl [open_success second_database])
    as (Hp & _ & _).
  split; [exact Hp | ]. split; [exact (Hdb second_database) | exact Hopens].
Defined.

(** A third [getDB], after a second request has succeeded with another
    database: it resolves with that one. *)
Lemma third_getDB_has_the_second_database :
  fst (getDB (after_calls loaded
                [[open_success first_database];
                 [open_success second_database]]) [])
    = Resolved second_database /\
  fst (getDB (snd (getDB opened_once [open_success second_database])) [])
    = Resolved second_database.
Proof.
  destruct (@IdbFacts.getDB_remembers_the_database loaded
              []) as (_ & _ & Hcalls).
  destruct (@IdbFacts.getDB_remembers_the_database opened_once
              [open_success second_database]) as (_ & Hnext & _).
  split.
  - exact (Hcalls [[open_success first_database]] second_database []).
  - apply Hnext. reflexivity.
Defined.

(** The first [getDB] of a page, failing. *)
Lemma failed_open_rejects :
  fst (getDB loaded [open_error (DOMException "VersionError")])
    = Failed (DOMException "VersionError").
Proof.
  destruct (@IdbFacts.first_event_settles_getDB loaded eq_refl)
    as (_ & Herr & _).
  apply Herr.
Defined.

(** [clearStore] before and after the database is opened. *)
Lemma clearStore_before_and_after_getDB :
  clearStore no_throw loaded "keys" [clear_success]
    = (Failed TypeError, loaded) /\
  fst (clearStore no_throw opened_once "keys" [clear_success])
    = Resolved tt.
Proof.
  destruct (@IdbFacts.clearStore_needs_an_open_database no_throw loaded
              "keys") as (Hnone & _).
  destruct (@IdbFacts.clearStore_needs_an_open_database no_throw opened_once
              "keys") as (_ & Hsome).
  destruct (Hsome first_database eq_refl eq_refl) as (_ & _ & Hok & _).
  split; [exact (Hnone eq_refl [clear_success]) | exact (Hok [])].
Defined.

End IdbRuns.

(** ** Lightness of a colour *)

Module LightnessFacts.

Import Lightness.

Lemma in_upto (n : nat) (z : Z) : 0 <= z < Z.of_nat n -> In z (upto n).
Proof.
  intros H. unfold upto. apply in_map_iff. exists (Z.to_nat z). split.
  - lia.
  - apply in_seq. lia.
Qed.

Lemma same_eq (x y : float) : same x y = true <-> x = y.
Proof. apply FloatAxioms.Leibniz.eqb_spec. Qed.

Lemma for_each (n : nat) (f : Z -> bool) :
  forallb f (upto n) = true ->
  forall a, 0 <= a < Z.of_nat n -> f a = true.
Proof.
  intros H a Ha. rewrite forallb_forall in H. exact (H a (in_upto n Ha)).
Qed.

Lemma for_pairs (n : nat) (f : Z -> Z -> bool) :
  forallb (fun a => forallb (f a) (upto n)) (upto n) = true ->
  forall a b, 0 <= a < Z.of_nat n -> 0 <= b < Z.of_nat n -> f a b = true.
Proof.
  intros H a b Ha Hb.
  apply (@for_each n (f a)); [ | exact Hb].
  exact (@for_each n (fun a => forallb (f a) (upto n)) H a Ha).
Qed.

(** On channels, the steps of [Math.max] and [Math.min] and the sum of
    two channels are those of the integers. *)
Lemma channels_checked :
  forallb (fun a => forallb (fun b =>
     same (max_step (number a) (number b)) (number (Z.max a b)) &&
     same (min_step (number a) (number b)) (number (Z.min a b)) &&
     same (PrimFloat.add (number a) (number b)) (number (a + b)))
   (upto 256)) (upto 256) = true.
Proof. vm_compute. reflexivity. Qed.

Lemma channel_checked :
  forallb (fun a =>
     negb (PrimFloat.is_nan (number a)) &&
     same (max_step PrimFloat.neg_infinity (number a)) (number a) &&
     same (min_step PrimFloat.infinity (number a)) (number a) &&
     same (lightness_of_sum (2 * a))
          (PrimFloat.div (number a) (number 255)))
   (upto 256) = true.
Proof. vm_compute. reflexivity. Qed.

Lemma sums_checked :
  forallb (fun m =>
     PrimFloat.leb PrimFloat.zero (lightness_of_sum m) &&
     PrimFloat.leb (lightness_of_sum m) PrimFloat.one &&
     Bool.eqb (same (lightness_of_sum m) PrimFloat.zero) (Z.eqb m 0) &&
     Bool.eqb (same (lightness_of_sum m) PrimFloat.one) (Z.eqb m 510))
   (upto 511) = true.
Proof. vm_compute. reflexivity. Qed.

Lemma sums_ordered :
  forallb (fun m => forallb (fun n =>
     Bool.eqb (PrimFloat.ltb (lightness_of_sum m) (lightness_of_sum n))
              (Z.ltb m n))
   (upto 511)) (upto 511) = true.
Proof. vm_compute. reflexivity. Qed.

Lemma max_of_channels (a b : Z) :
  channel a -> channel b ->
  max_step (number a) (number b) = number (Z.max a b) /\
  min_step (number a) (number b) = number (Z.min a b) /\
  PrimFloat.add (number a) (number b) = number (a + b).
Proof.
  unfold channel. intros Ha Hb.
  pose proof (@for_pairs _ _ channels_checked a b) as H. cbv beta in H.
  specialize (H ltac:(lia) ltac:(lia)).
  rewrite !andb_true_iff in H. destruct H as ((Hmax & Hmin) & Hadd).
  repeat split; apply same_eq; assumption.
Qed.

Lemma first_channel (a : Z) :
  channel a ->
  PrimFloat.is_nan (number a) = false /\
  max_step PrimFloat.neg_infinity (number a) = number a /\
  min_step PrimFloat.infinity (number a) = number a /\
  lightness_of_sum (2 * a) = PrimFloat.div (number a) (number 255).
Proof.
  unfold channel. intros Ha.
  pose proof (@for_each _ _ channel_checked a) as H. cbv beta in H.
  specialize (H ltac:(lia)).
  rewrite !andb_true_iff in H. destruct H as (((Hnan & Hmax) & Hmin) & Hgrey).
  apply negb_true_iff in Hnan.
  repeat split; try apply same_eq; assumption.
Qed.

(** The lightness of a colour is that of the sum of its extremes. *)
Lemma lightness_of_colour (r g b : Z) :
  channel r -> channel g -> channel b ->
  parseLightness (colour r g b) = lightness_of_sum (extremes r g b).
Proof.
  intros Hr Hg Hb.
  destruct (first_channel Hr) as (Nr & Mr & mr & _).
  destruct (first_channel Hg) as (Ng & _).
  destruct (first_channel Hb) as (Nb & _).
  destruct (max_of_channels Hr Hg) as (Mrg & mrg & _).
  assert (Hmax : channel (Z.max r g)) by (unfold channel in *; lia).
  assert (Hmin : channel (Z.min r g)) by (unfold channel in *; lia).
  destruct (max_of_channels Hmax Hb) as (M3 & _).
  destruct (max_of_channels Hmin Hb) as (_ & m3 & _).
  assert (Hmax3 : channel (Z.max (Z.max r g) b)) by (unfold channel in *; lia).
  assert (Hmin3 : channel (Z.min (Z.min r g) b)) by (unfold channel in *; lia).
  destruct (max_of_channels Hmax3 Hmin3) as (_ & _ & Hsum).
  unfold parseLightness, colour, item, Math_max, Math_min, lightness_of_sum,
    extremes.
  cbn [nth existsb fold_left].
  rewrite Nr, Ng, Nb. cbn [orb].
  rewrite Mr, mr, Mrg, mrg, M3, m3, Hsum. reflexivity.
Qed.

Lemma extremes_range (r g b : Z) :
  channel r -> channel g -> channel b -> 0 <= extremes r g b < 511.
Proof. unfold channel, extremes. lia. Qed.

(** X28.  The lightness of a colour with channels of 0 .. 255 is a
    fraction: it lies between 0 and 1, it is 0 for black only, and 1 for
    white only. *)
Theorem lightness_is_a_fraction (r g b : Z) :
  channel r -> channel g -> channel b ->
  PrimFloat.leb PrimFloat.zero (parseLightness (colour r g b)) = true /\
  PrimFloat.leb (parseLightness (colour r g b)) PrimFloat.one = true /\
  (parseLightness (colour r g b) = PrimFloat.zero <->
     r = 0 /\ g = 0 /\ b = 0) /\
  (parseLightness (colour r g b) = PrimFloat.one <->
     r = 255 /\ g = 255 /\ b = 255).
Proof.
  intros Hr Hg Hb. rewrite (lightness_of_colour Hr Hg Hb).
  pose proof (extremes_range Hr Hg Hb) as Hm.
  pose proof (@for_each _ _ sums_checked (extremes r g b)) as H. cbv beta in H.
  specialize (H ltac:(lia)).
  rewrite !andb_true_iff in H. destruct H as (((Hlow & Hhigh) & H0) & H1).
  apply Bool.eqb_prop in H0, H1.
  split; [exact Hlow | ]. split; [exact Hhigh | ].
  rewrite <- !same_eq, H0, H1, !Z.eqb_eq.
  unfold channel, extremes in *. lia.
Qed.

(** X29.  The lightness depends on the largest and the smallest channel
    only: it is their sum over 510, so the order of the channels does
    not matter, a grey has the lightness of its channel over 255, and
    of two colours the one with the larger sum, and no other, has the
    larger lightness. *)
Theorem lightness_follows_the_extremes (r g b : Z) :
  channel r -> channel g -> channel b ->
  parseLightness (colour r g b) =
    PrimFloat.div (number (extremes r g b)) (number 510) /\
  parseLightness (colour g r b) = parseLightness (colour r g b) /\
  parseLightness (colour r b g) = parseLightness (colour r g b) /\
  parseLightness (colour r r r) = PrimFloat.div (number r) (number 255) /\
  forall r' g' b', channel r' -> channel g' -> channel b' ->
    PrimFloat.ltb (parseLightness (colour r g b))
                  (parseLightness (colour r' g' b')) =
      Z.ltb (extremes r g b) (extremes r' g' b').
Proof.
  intros Hr Hg Hb.
  rewrite (lightness_of_colour Hr Hg Hb), (lightness_of_colour Hg Hr Hb),
    (lightness_of_colour Hr Hb Hg), (lightness_of_colour Hr Hr Hr).
  split; [reflexivity | ].
  split; [f_equal; unfold extremes; lia | ].
  split; [f_equal; unfold extremes; lia | ].
  split.
  - destruct (first_channel Hr) as (_ & _ & _ & Hgrey).
    rewrite <- Hgrey. f_equal. unfold extremes. lia.
  - intros r' g' b' Hr' Hg' Hb'. rewrite (lightness_of_colour Hr' Hg' Hb').
    pose proof (extremes_range Hr Hg Hb) as Hm.
    pose proof (extremes_range Hr' Hg' Hb') as Hm'.
    pose proof (@for_pairs _ _ sums_ordered (extremes r g b)
                  (extremes r' g' b')) as H. cbv beta in H.
    specialize (H ltac:(lia) ltac:(lia)).
    apply Bool.eqb_prop in H. exact H.
Qed.

Lemma nan_is_nan : PrimFloat.is_nan PrimFloat.nan = true.
Proof. reflexivity. Qed.

(** X30.  An array with fewer than three entries, or with a [NaN] among
    its first three, has no lightness: the result is [NaN]. *)
Theorem lightness_needs_three_numbers (rgb : list float) :
  (length rgb < 3)%nat \/
  existsb PrimFloat.is_nan (firstn 3 rgb) = true ->
  parseLightness rgb = PrimFloat.nan.
Proof.
  intros H.
  assert (Hnan : existsb PrimFloat.is_nan
                   [item rgb 0; item rgb 1; item rgb 2] = true).
  { destruct rgb as [ | r [ | g [ | b rest]]].
    1-3: unfold item; cbn [nth existsb]; rewrite nan_is_nan, ?orb_true_r;
      reflexivity.
    destruct H as [H | H]; [cbn in H; lia | exact H]. }
  unfold parseLightness, Math_max, Math_min. cbv zeta. rewrite Hnan.
  reflexivity.
Qed.

End LightnessFacts.

(** ** Lightness of a colour, run *)

Module LightnessRuns.

Import Lightness.

(** A dark red. *)
Lemma lightness_of_a_dark_red :
  PrimFloat.leb PrimFloat.zero (parseLightness (colour 128 0 0)) = true /\
  PrimFloat.leb (parseLightness (colour 128 0 0)) PrimFloat.one = true.
Proof.
  destruct (@LightnessFacts.lightness_is_a_fraction 128 0 0)
    as (Hlow & Hhigh & _); try (unfold channel; lia).
  split; assumption.
Defined.

(** A grey, and a red darker than it. *)
Lemma grey_and_red :
  parseLightness (colour 128 128 128) =
    PrimFloat.div (number 128) (number 255) /\
  PrimFloat.ltb (parseLightness (colour 200 0 0))
                (parseLightness (colour 128 128 128)) = true.
Proof.
  destruct (@LightnessFacts.lightness_follows_the_extremes 128 128 128)
    as (_ & _ & _ & Hgrey & _); try (unfold channel; lia).
  destruct (@LightnessFacts.lightness_follows_the_extremes 200 0 0)
    as (_ & _ & _ & _ & Hlt); try (unfold channel; lia).
  split; [exact Hgrey | ].
  rewrite (Hlt 128 128 128); try (unfold channel; lia). reflexivity.
Defined.

(** A colour of two channels. *)
Lemma two_channels_have_no_lightness :
  parseLightness [number 1; number 2] = PrimFloat.nan.
Proof.
  apply LightnessFacts.lightness_needs_three_numbers.
  left. cbn. lia.
Defined.

End LightnessRuns.
